(** * statistics_and_trends.py: cleaning, moments, shape labels and chart selection

    A shallow embedding of [src/statistics_and_trends.py].  The file defines
    every function twice; the second group of definitions (the ones with a
    logger and a [try]/[except] around each body) rebinds the names before
    [main] runs, so these are the definitions embedded here.  The script
    calls [main] twice in a row; each call is one run of [main] below.
    The first group of definitions is embedded in [Plain], to compare the
    two.

    Conventions of the embedding.
    - A data frame is stored by columns, as pandas stores it: an index of row
      labels and a list of named, typed series.
    - Floating point numbers are idealised: a float is either [nan] or an
      exact real.  Rounding and overflow are outside the model.
    - The outside world (console, log file, image files, calls into
      matplotlib and seaborn) is an explicit state; Python exceptions are a
      result constructor.  Which library calls raise is given by an oracle.
    - [logger] calls and [print] of a plain string do not raise. *)

From Stdlib Require Import String List Bool Arith Lia Reals Lra.
Import ListNotations.

Open Scope string_scope.

(** ** Python values used by the program *)

(** A float: [nan] is pandas' marker of a missing numeric cell and the value of
    an undefined statistic.  A number is kept as an exact real: the model
    has no rounding, no overflow to infinity and no conversion of int64 to
    float64, so the value it gives to a computed moment is the ideal one, not
    the binary64 number of a run.  The statements below about moments are
    therefore only about what is decided before any arithmetic: which column
    is analysed, whether a tuple is returned, and the nan that the libraries
    answer from the number of values alone. *)
Inductive float : Type :=
| nan
| fin (r : R).

Definition isnan (x : float) : bool :=
  match x with nan => true | fin _ => false end.


(** The result of [mean, stddev, skew, excess_kurtosis]. *)
Definition moments_t : Type := (float * float * float * float)%type.

(** ** Exceptions, the world, and the monad of effects *)

Inductive exn_class : Type :=
| AttributeError | TypeError | KeyError | IndexError | ValueError
| FileNotFoundError | ParserError | RuntimeError.

Record exn : Type := mk_exn { exn_cls : exn_class; exn_str : string }.

Inductive level : Type := INFO | WARNING | ERROR.

(** The three tables [preprocessing] prints. *)
Inductive summary : Type := describe | head | corr.

(** What reaches the console.  The numbers of the report line are kept as
    values: their [:.2f] rendering is not modelled. *)
Inductive output : Type :=
| Text (s : string)
| Table (t : summary)
| MomentsText (mean stddev skew kurt : float).

(** Calls into pandas, matplotlib and seaborn that may raise. *)
Inductive ext_call : Type :=
| df_describe | df_head | df_corr
| numeric_data_corr
| plt_subplots
| plt_figure (w h : nat)
| sns_scatterplot (x y : string)
| sns_countplot (x : string)
| sns_heatmap
| plt_xlabel (s : string)
| plt_ylabel (s : string)
| plt_title (s : string)
| plt_grid
| plt_xticks
| plt_savefig (f : string)
| plt_close.

(** [E c = Some m]: the call [c] raises an exception whose text is [m]. *)
Definition oracle : Type := ext_call -> option string.

Definition no_fault (E : oracle) : Prop := forall c, E c = None.

Definition quiet : oracle := fun _ => None.

Record world : Type := mk_world {
  stdout : list output;            (* console, oldest first *)
  log : list (level * string);     (* records sent to the logger *)
  files : list string;             (* image files written, in order *)
  calls : list ext_call            (* library calls attempted *)
}.

Definition empty_world : world := mk_world [] [] [] [].

Inductive result (A : Type) : Type :=
| Ok (a : A)
| Raised (e : exn).
Arguments Ok {A} a.
Arguments Raised {A} e.

Definition M (A : Type) : Type := world -> result A * world.

Definition ret {A} (a : A) : M A := fun w => (Ok a, w).

Definition bind {A B} (m : M A) (k : A -> M B) : M B :=
  fun w => match m w with
           | (Ok a, w') => k a w'
           | (Raised e, w') => (Raised e, w')
           end.

Definition raise {A} (c : exn_class) (s : string) : M A :=
  fun w => (Raised (mk_exn c s), w).

(** [try: body / except Exception as e: handler e]. *)
Definition try_except {A} (body : M A) (handler : exn -> M A) : M A :=
  fun w => match body w with
           | (Ok a, w') => (Ok a, w')
           | (Raised e, w') => handler e w'
           end.

Declare Scope py_scope.
Delimit Scope py_scope with py.
Notation "x <- m ;; k" := (bind m (fun x => k))
  (at level 61, m at next level, right associativity) : py_scope.
Notation "m ;; k" := (bind m (fun _ => k))
  (at level 61, right associativity) : py_scope.
Open Scope py_scope.

Definition print (o : output) : M unit :=
  fun w => (Ok tt, mk_world (stdout w ++ [o]) (log w) (files w) (calls w)).

Definition logger (l : level) (s : string) : M unit :=
  fun w => (Ok tt, mk_world (stdout w) (log w ++ [(l, s)]) (files w) (calls w)).

(** A library call: recorded, then it raises or returns as the oracle says.
    Only the text of a library exception is modelled, not its class: every
    handler of the second definitions is [except Exception], so nothing
    stated below depends on the class a library raises. *)
Definition ext (E : oracle) (c : ext_call) : M unit :=
  fun w =>
    let w' := mk_world (stdout w) (log w) (files w) (calls w ++ [c]) in
    match E c with
    | Some m => (Raised (mk_exn RuntimeError m), w')
    | None => (Ok tt, w')
    end.

(** [plt.savefig(f)]: when the call returns, the file [f] has been written. *)
Definition write_file (f : string) : M unit :=
  fun w => (Ok tt, mk_world (stdout w) (log w) (files w ++ [f]) (calls w)).

Definition savefig (E : oracle) (f : string) : M unit :=
  ext E (plt_savefig f) ;; write_file f.

(** ** Data frames *)

Inductive dtype : Type := number | object | category | boolean.

Definition dtype_eqb (a b : dtype) : bool :=
  match a, b with
  | number, number | object, object | category, category
  | boolean, boolean => true
  | _, _ => false
  end.

(** A column.  [Numeric] stands for int64 and float64 ([np.number]); a
    missing text cell is [None]; a bool column has no missing cell. *)
Inductive series : Type :=
| Numeric (xs : list float)
| Object (xs : list (option string))
| Category (xs : list (option string))
| Boolean (xs : list bool).

Definition series_dtype (s : series) : dtype :=
  match s with
  | Numeric _ => number
  | Object _ => object
  | Category _ => category
  | Boolean _ => boolean
  end.

Definition series_length (s : series) : nat :=
  match s with
  | Numeric xs => length xs
  | Object xs | Category xs => length xs
  | Boolean xs => length xs
  end.

Record DataFrame : Type := mk_df {
  df_index : list nat;                   (* row labels *)
  df_columns : list (string * series)    (* columns, in file order *)
}.

(** Every column has one cell per row label. *)
Definition wf (df : DataFrame) : Prop :=
  Forall (fun c => series_length (snd c) = length (df_index df)) (df_columns df).

(** [df.columns] *)
Definition columns (df : DataFrame) : list string := map fst (df_columns df).

Definition dtypes (df : DataFrame) : list dtype :=
  map (fun c => series_dtype (snd c)) (df_columns df).

(** [df.select_dtypes(include=...)]: the columns whose dtype is listed, in
    their original order. *)
Definition has_dtype (include : list dtype) (c : string * series) : bool :=
  existsb (dtype_eqb (series_dtype (snd c))) include.

Definition select_dtypes (include : list dtype) (df : DataFrame) : DataFrame :=
  mk_df (df_index df) (filter (has_dtype include) (df_columns df)).

(** [df.shape[1]] *)
Definition shape1 (df : DataFrame) : nat := length (df_columns df).

(** *** [dropna] *)

Fixpoint zip_with {A B C} (f : A -> B -> C) (l : list A) (m : list B) : list C :=
  match l, m with
  | a :: l', b :: m' => f a b :: zip_with f l' m'
  | _, _ => []
  end.

(** Boolean-mask selection, [obj[mask]]. *)
Fixpoint take_mask {A} (mask : list bool) (l : list A) : list A :=
  match mask, l with
  | b :: mask', a :: l' => if b then a :: take_mask mask' l' else take_mask mask' l'
  | _, _ => []
  end.

Definition series_notna (s : series) : list bool :=
  match s with
  | Numeric xs => map (fun x => negb (isnan x)) xs
  | Object xs | Category xs =>
      map (fun x => match x with Some _ => true | None => false end) xs
  | Boolean xs => map (fun _ => true) xs
  end.

Definition series_take (mask : list bool) (s : series) : series :=
  match s with
  | Numeric xs => Numeric (take_mask mask xs)
  | Object xs => Object (take_mask mask xs)
  | Category xs => Category (take_mask mask xs)
  | Boolean xs => Boolean (take_mask mask xs)
  end.

(** [df.notna().all(axis=1)]: per row, whether every column has a value. *)
Definition notna_all (df : DataFrame) : list bool :=
  fold_right (fun c acc => zip_with andb (series_notna (snd c)) acc)
             (repeat true (length (df_index df)))
             (df_columns df).

(** [df.loc[mask]] *)
Definition loc_mask (mask : list bool) (df : DataFrame) : DataFrame :=
  mk_df (take_mask mask (df_index df))
        (map (fun c => (fst c, series_take mask (snd c))) (df_columns df)).

(** [df.dropna()], with the defaults [axis=0, how='any']. *)
Definition dropna (df : DataFrame) : DataFrame := loc_mask (notna_all df) df.

(** *** The row view of a frame, used to state what cleaning keeps *)

Inductive cell : Type :=
| NA
| Num (r : R)
| Str (s : string)
| Bool (b : bool).

Definition cell_notna (c : cell) : bool :=
  match c with NA => false | _ => true end.

Definition series_cells (s : series) : list cell :=
  match s with
  | Numeric xs => map (fun x => match x with nan => NA | fin r => Num r end) xs
  | Object xs | Category xs =>
      map (fun x => match x with Some t => Str t | None => NA end) xs
  | Boolean xs => map Bool xs
  end.

(** The cells of [n] rows, row by row: each column adds its cell in front. *)
Definition transpose (n : nat) (cols : list (string * series)) : list (list cell) :=
  fold_right (fun c acc => zip_with cons (series_cells (snd c)) acc)
             (repeat [] n) cols.

(** Row [i] is its label with the [i]-th cell of every column, left to right. *)
Definition rows (df : DataFrame) : list (nat * list cell) :=
  combine (df_index df) (transpose (length (df_index df)) (df_columns df)).

Definition row_complete (r : nat * list cell) : bool := forallb cell_notna (snd r).

(** No column holds a missing cell. *)
Definition no_missing (df : DataFrame) : Prop :=
  forall c, In c (df_columns df) -> forallb (fun b => b) (series_notna (snd c)) = true.

(** ** pandas and scipy: the statistics the program calls

    These are library functions, not code of the repository.  They are written
    here the way the libraries compute them: pandas masks missing cells
    (zero-fills them and divides by the count of present cells), scipy's
    [nan_policy='omit'] removes them before computing. *)

Open Scope R_scope.

Definition sum_R (l : list R) : R := fold_right Rplus 0 l.

(** Number of cells that are not missing. *)
Definition count (xs : list float) : nat :=
  length (filter (fun x => negb (isnan x)) xs).

Definition fill0 (x : float) : R :=
  match x with nan => 0 | fin r => r end.

(** [Series.mean()] with its default [skipna=True]. *)
Definition nanmean (xs : list float) : float :=
  let n := count xs in
  if (n =? 0)%nat then nan
  else fin (sum_R (map fill0 xs) / INR n).

(** [Series.std()] with its defaults [skipna=True, ddof=1]. *)
Definition nanstd (xs : list float) : float :=
  let ddof := 1%nat in
  let n := count xs in
  if (n <=? ddof)%nat then nan
  else
    let avg := sum_R (map fill0 xs) / INR n in
    let sqr := map (fun x => match x with
                             | nan => 0
                             | fin r => (avg - r) ^ 2
                             end) xs in
    fin (sqrt (sum_R sqr / INR (n - ddof))).

(** scipy: [np.mean(a)] and the [k]-th central moment of an array. *)
Definition np_mean (a : list R) : R := sum_R a / INR (length a).

Definition moment (k : nat) (a : list R) : R :=
  np_mean (map (fun x => (x - np_mean a) ^ k) a).

(** [np.finfo(np.float64).resolution] *)
Definition resolution : R := / 10 ^ 15.

(** [scipy.stats.skew] on an array without nan, defaults [bias=True]:
    [m3 / m2**1.5], and nan for an empty array and wherever the library's
    test [m2 <= (resolution * mean)**2] holds, that is for a constant or
    nearly constant array. *)
Definition skew_array (a : list R) : float :=
  match a with
  | [] => nan
  | _ :: _ =>
      let mean := np_mean a in
      let m2 := moment 2 a in
      let m3 := moment 3 a in
      if Rle_dec m2 ((resolution * mean) ^ 2) then nan
      else fin (m3 / Rpower m2 (3 / 2))
  end.

(** [scipy.stats.kurtosis], defaults [fisher=True, bias=True]:
    [m4 / m2**2 - 3], with the same test. *)
Definition kurtosis_array (a : list R) : float :=
  match a with
  | [] => nan
  | _ :: _ =>
      let mean := np_mean a in
      let m2 := moment 2 a in
      let m4 := moment 4 a in
      if Rle_dec m2 ((resolution * mean) ^ 2) then nan
      else fin (m4 / m2 ^ 2 - 3)
  end.

Close Scope R_scope.

Inductive nan_policy : Type := propagate | raise_nan | omit.

Definition contains_nan (a : list float) : bool := existsb isnan a.

Definition remove_nans (a : list float) : list R :=
  flat_map (fun x => match x with nan => [] | fin r => [r] end) a.

Definition with_nan_policy (p : nan_policy) (f : list R -> float)
    (a : list float) : result float :=
  match p with
  | omit => Ok (f (remove_nans a))
  | propagate => Ok (if contains_nan a then nan else f (remove_nans a))
  | raise_nan =>
      if contains_nan a
      then Raised (mk_exn ValueError "The input contains nan values")
      else Ok (f (remove_nans a))
  end.

(** The numbers a column offers to a statistic: a bool column counts as 0
    and 1, a text column raises (the wording of pandas' message is not
    modelled). *)
Definition numeric_values (s : series) : result (list float) :=
  match s with
  | Numeric xs => Ok xs
  | Boolean xs => Ok (map (fun b : bool => fin (if b then 1%R else 0%R)) xs)
  | Object _ | Category _ =>
      Raised (mk_exn TypeError "could not convert to numeric")
  end.

Definition lift {A} (r : result A) : M A := fun w => (r, w).

Definition Series_mean (s : series) : M float :=
  xs <- lift (numeric_values s) ;; ret (nanmean xs).

Definition Series_std (s : series) : M float :=
  xs <- lift (numeric_values s) ;; ret (nanstd xs).

Definition ss_skew (s : series) (p : nan_policy) : M float :=
  xs <- lift (numeric_values s) ;; lift (with_nan_policy p skew_array xs).

Definition ss_kurtosis (s : series) (p : nan_policy) : M float :=
  xs <- lift (numeric_values s) ;; lift (with_nan_policy p kurtosis_array xs).

(** [df[col]]: the first column of that name, [KeyError] when there is none. *)
Fixpoint lookup (col : string) (cols : list (string * series)) : option series :=
  match cols with
  | [] => None
  | (n, s) :: cols' => if String.eqb n col then Some s else lookup col cols'
  end.

Definition getitem (df : DataFrame) (col : string) : M series :=
  match lookup col (df_columns df) with
  | Some s => ret s
  | None => raise KeyError ("'" ++ col ++ "'")
  end.

(** [names[i]] on a pandas [Index]. *)
Definition index_getitem (names : list string) (i : nat) : M string :=
  match nth_error names i with
  | Some n => ret n
  | None => raise IndexError "index is out of bounds"
  end.

(** ** The program *)

(** Lines 157-165. *)
Definition plot_relational_plot (E : oracle) (df : DataFrame) : M unit :=
  try_except
    (ext E plt_subplots ;;
     savefig E "relational_plot.png" ;;
     logger INFO "Relational plot saved successfully.")
    (fun e => logger ERROR ("Failed to save relational plot: " ++ exn_str e)).

(** Lines 167-175. *)
Definition plot_categorical_plot (E : oracle) (df : DataFrame) : M unit :=
  try_except
    (ext E plt_subplots ;;
     savefig E "categorical_plot.png" ;;
     logger INFO "Categorical plot saved successfully.")
    (fun e => logger ERROR ("Failed to save categorical plot: " ++ exn_str e)).

(** Lines 177-185. *)
Definition plot_statistical_plot (E : oracle) (df : DataFrame) : M unit :=
  try_except
    (ext E plt_subplots ;;
     savefig E "statistical_plot.png" ;;
     logger INFO "Statistical plot saved successfully.")
    (fun e => logger ERROR ("Failed to save statistical plot: " ++ exn_str e)).

(** Lines 187-198.  [None] is the sentinel of a failed analysis. *)
Definition statistical_analysis (df : DataFrame) (col : string)
    : M (option moments_t) :=
  try_except
    (s <- getitem df col ;; mean <- Series_mean s ;;
     s <- getitem df col ;; stddev <- Series_std s ;;
     s <- getitem df col ;; skew <- ss_skew s omit ;;
     s <- getitem df col ;; excess_kurtosis <- ss_kurtosis s omit ;;
     logger INFO ("Statistical analysis for column " ++ col
                  ++ " completed successfully.") ;;
     ret (Some (mean, stddev, skew, excess_kurtosis)))
    (fun e =>
       logger ERROR ("Failed to perform statistical analysis for column "
                     ++ col ++ ": " ++ exn_str e) ;;
       ret None).

(** Lines 200-210.  [None] is the sentinel of a failed preprocessing. *)
Definition preprocessing (E : oracle) (df : DataFrame) : M (option DataFrame) :=
  try_except
    (ext E df_describe ;; print (Table describe) ;;
     ext E df_head ;; print (Table head) ;;
     ext E df_corr ;; print (Table corr) ;;
     logger INFO "Data preprocessing completed successfully." ;;
     ret (Some (dropna df)))
    (fun e =>
       logger ERROR ("Failed to preprocess data: " ++ exn_str e) ;;
       ret None).

(** [moments[i]]: subscripting [None] raises [TypeError]. *)
Definition subscript (moments : option moments_t) (i : nat) : M float :=
  match moments with
  | None => raise TypeError "'NoneType' object is not subscriptable"
  | Some (m0, m1, m2, m3) =>
      match i with
      | 0 => ret m0
      | 1 => ret m1
      | 2 => ret m2
      | 3 => ret m3
      | _ => raise IndexError "tuple index out of range"
      end
  end.

(** [x > 0] and [x < 0] on floats: both are false on nan. *)
Definition gt0 (x : float) : bool :=
  match x with
  | nan => false
  | fin r => if Rlt_dec 0 r then true else false
  end.

Definition lt0 (x : float) : bool :=
  match x with
  | nan => false
  | fin r => if Rlt_dec r 0 then true else false
  end.

(** Lines 220 and 221: the two conditional expressions of [writing]. *)
Definition skew_desc (skew : float) : string :=
  if gt0 skew then "Right-skewed"
  else if lt0 skew then "Left-skewed"
  else "Symmetrical".

Definition kurtosis_desc (kurt : float) : string :=
  if gt0 kurt then "Leptokurtic"
  else if lt0 kurt then "Platykurtic"
  else "Mesokurtic".

(** Lines 212-226. *)
Definition writing (moments : option moments_t) (col : string) : M unit :=
  try_except
    (print (Text ("For the attribute " ++ col ++ ":")) ;;
     m0 <- subscript moments 0 ;;
     m1 <- subscript moments 1 ;;
     m2 <- subscript moments 2 ;;
     m3 <- subscript moments 3 ;;
     print (MomentsText m0 m1 m2 m3) ;;
     skew <- subscript moments 2 ;;
     kurt <- subscript moments 3 ;;
     print (Text ("The data is " ++ skew_desc skew ++ " and "
                  ++ kurtosis_desc kurt ++ ".")) ;;
     logger INFO ("Statistical moments for column " ++ col
                  ++ " printed successfully."))
    (fun e =>
       logger ERROR ("Failed to print statistical moments for column "
                     ++ col ++ ": " ++ exn_str e)).

(** Lines 228-247. *)
Definition scatter_plot (E : oracle) (df : DataFrame) (file_name : string)
    : M unit :=
  try_except
    (ext E (plt_figure 8 6) ;;
     let numeric_cols := columns (select_dtypes [number] df) in
     if (length numeric_cols <? 2)%nat then
       print (Text ("Insufficient numerical columns in " ++ file_name ++ ".")) ;;
       logger WARNING ("Insufficient numerical columns in " ++ file_name ++ ".")
     else
       x <- index_getitem numeric_cols 0 ;;
       y <- index_getitem numeric_cols 1 ;;
       ext E (sns_scatterplot x y) ;;
       x <- index_getitem numeric_cols 0 ;;
       ext E (plt_xlabel x) ;;
       y <- index_getitem numeric_cols 1 ;;
       ext E (plt_ylabel y) ;;
       ext E (plt_title ("Scatter Plot - " ++ file_name)) ;;
       ext E plt_grid ;;
       savefig E ("scatter_" ++ file_name ++ ".png") ;;
       ext E plt_close ;;
       logger INFO ("Scatter plot for " ++ file_name ++ " saved successfully."))
    (fun e =>
       logger ERROR ("Failed to save scatter plot for " ++ file_name ++ ": "
                     ++ exn_str e)).

(** Lines 249-269. *)
Definition bar_plot (E : oracle) (df : DataFrame) (file_name : string)
    : M unit :=
  try_except
    (ext E (plt_figure 10 6) ;;
     let category_cols := columns (select_dtypes [object; category] df) in
     if (length category_cols =? 0)%nat then
       print (Text ("No categorical data in " ++ file_name ++ ".")) ;;
       logger WARNING ("No categorical data in " ++ file_name ++ ".")
     else
       x <- index_getitem category_cols 0 ;;
       ext E (sns_countplot x) ;;
       x <- index_getitem category_cols 0 ;;
       ext E (plt_xlabel x) ;;
       ext E (plt_ylabel "Count") ;;
       ext E (plt_title ("Bar Chart - " ++ file_name)) ;;
       ext E plt_xticks ;;
       ext E plt_grid ;;
       savefig E ("bar_" ++ file_name ++ ".png") ;;
       ext E plt_close ;;
       logger INFO ("Bar chart for " ++ file_name ++ " saved successfully."))
    (fun e =>
       logger ERROR ("Failed to save bar chart for " ++ file_name ++ ": "
                     ++ exn_str e)).

(** Lines 271-287. *)
Definition heatmap (E : oracle) (df : DataFrame) (file_name : string)
    : M unit :=
  try_except
    (ext E (plt_figure 8 6) ;;
     let numeric_data := select_dtypes [number] df in
     if (shape1 numeric_data <? 2)%nat then
       print (Text ("Not enough numeric data in " ++ file_name ++ ".")) ;;
       logger WARNING ("Not enough numeric data in " ++ file_name ++ ".")
     else
       ext E numeric_data_corr ;;
       ext E sns_heatmap ;;
       ext E (plt_title ("Heatmap - " ++ file_name)) ;;
       savefig E ("heatmap_" ++ file_name ++ ".png") ;;
       ext E plt_close ;;
       logger INFO ("Heatmap for " ++ file_name ++ " saved successfully."))
    (fun e =>
       logger ERROR ("Failed to save heatmap for " ++ file_name ++ ": "
                     ++ exn_str e)).

(** What [pd.read_csv(file_name, ...)] did: a frame, or an exception. *)
Inductive read_csv_result : Type :=
| Parsed (df : DataFrame)
| ReadError (e : exn).

(** Lines 312-317 of [main]: the six chart calls, in the order of the source. *)
Definition charts (E : oracle) (df : DataFrame) (file_name : string) : M unit :=
  plot_relational_plot E df ;;
  plot_statistical_plot E df ;;
  plot_categorical_plot E df ;;
  scatter_plot E df file_name ;;
  heatmap E df file_name ;;
  bar_plot E df file_name.

(** Lines 289-319.  [preprocessing] may hand back [None]; the next statement
    calls a method on its result without a test. *)
Definition main (E : oracle) (csv : read_csv_result) : M unit :=
  let file_name := "data.csv" in
  match csv with
  | ReadError e =>
      match exn_cls e with
      | FileNotFoundError =>
          print (Text ("File " ++ file_name ++ " not found.")) ;;
          logger ERROR ("File " ++ file_name ++ " not found.")
      | ParserError =>
          print (Text ("Error reading " ++ file_name ++ ", check formatting.")) ;;
          logger ERROR ("Error reading " ++ file_name ++ ", check formatting.")
      | _ => fun w => (Raised e, w)
      end
  | Parsed df =>
      logger INFO ("Data loaded from " ++ file_name ++ " successfully.") ;;
      df <- preprocessing E df ;;
      match df with
      | None =>
          raise AttributeError
                "'NoneType' object has no attribute 'select_dtypes'"
      | Some df =>
          let num_cols := columns (select_dtypes [number] df) in
          if (length num_cols =? 0)%nat then
            print (Text ("No numeric data in " ++ file_name ++ ".")) ;;
            logger WARNING ("No numeric data in " ++ file_name ++ ".")
          else
            selected_col <- index_getitem num_cols 0 ;;
            charts E df file_name ;;
            moments <- statistical_analysis df selected_col ;;
            writing moments selected_col
      end
  end.

(** Lines 321-323: run as a script, the file calls [main] twice.  Each call
    reads the file again: [csv1] and [csv2] are what the two reads did. *)
Definition script (E : oracle) (csv1 csv2 : read_csv_result) : M unit :=
  main E csv1 ;;
  main E csv2.

(** ** The first definitions of the file (lines 18-133)

    The same functions without the logger and without [try]/[except]: a
    library exception leaves the function that met it. *)

Module Plain.

(** Lines 18-22. *)
Definition plot_relational_plot (E : oracle) (df : DataFrame) : M unit :=
  ext E plt_subplots ;;
  savefig E "relational_plot.png".

(** Lines 24-28. *)
Definition plot_categorical_plot (E : oracle) (df : DataFrame) : M unit :=
  ext E plt_subplots ;;
  savefig E "categorical_plot.png".

(** Lines 30-34. *)
Definition plot_statistical_plot (E : oracle) (df : DataFrame) : M unit :=
  ext E plt_subplots ;;
  savefig E "statistical_plot.png".

(** Lines 36-42. *)
Definition statistical_analysis (df : DataFrame) (col : string) : M moments_t :=
  s <- getitem df col ;; mean <- Series_mean s ;;
  s <- getitem df col ;; stddev <- Series_std s ;;
  s <- getitem df col ;; skew <- ss_skew s omit ;;
  s <- getitem df col ;; excess_kurtosis <- ss_kurtosis s omit ;;
  ret (mean, stddev, skew, excess_kurtosis).

(** Lines 44-49. *)
Definition preprocessing (E : oracle) (df : DataFrame) : M DataFrame :=
  ext E df_describe ;; print (Table describe) ;;
  ext E df_head ;; print (Table head) ;;
  ext E df_corr ;; print (Table corr) ;;
  ret (dropna df).

(** Lines 51-61. *)
Definition writing (moments : option moments_t) (col : string) : M unit :=
  print (Text ("For the attribute " ++ col ++ ":")) ;;
  m0 <- subscript moments 0 ;;
  m1 <- subscript moments 1 ;;
  m2 <- subscript moments 2 ;;
  m3 <- subscript moments 3 ;;
  print (MomentsText m0 m1 m2 m3) ;;
  skew <- subscript moments 2 ;;
  kurt <- subscript moments 3 ;;
  print (Text ("The data is " ++ skew_desc skew ++ " and "
               ++ kurtosis_desc kurt ++ ".")).

(** Lines 63-76. *)
Definition scatter_plot (E : oracle) (df : DataFrame) (file_name : string)
    : M unit :=
  ext E (plt_figure 8 6) ;;
  let numeric_cols := columns (select_dtypes [number] df) in
  if (length numeric_cols <? 2)%nat then
    print (Text ("Insufficient numerical columns in " ++ file_name ++ "."))
  else
    x <- index_getitem numeric_cols 0 ;;
    y <- index_getitem numeric_cols 1 ;;
    ext E (sns_scatterplot x y) ;;
    x <- index_getitem numeric_cols 0 ;;
    ext E (plt_xlabel x) ;;
    y <- index_getitem numeric_cols 1 ;;
    ext E (plt_ylabel y) ;;
    ext E (plt_title ("Scatter Plot - " ++ file_name)) ;;
    ext E plt_grid ;;
    savefig E ("scatter_" ++ file_name ++ ".png") ;;
    ext E plt_close.

(** Lines 78-92. *)
Definition bar_plot (E : oracle) (df : DataFrame) (file_name : string)
    : M unit :=
  ext E (plt_figure 10 6) ;;
  let category_cols := columns (select_dtypes [object; category] df) in
  if (length category_cols =? 0)%nat then
    print (Text ("No categorical data in " ++ file_name ++ "."))
  else
    x <- index_getitem category_cols 0 ;;
    ext E (sns_countplot x) ;;
    x <- index_getitem category_cols 0 ;;
    ext E (plt_xlabel x) ;;
    ext E (plt_ylabel "Count") ;;
    ext E (plt_title ("Bar Chart - " ++ file_name)) ;;
    ext E plt_xticks ;;
    ext E plt_grid ;;
    savefig E ("bar_" ++ file_name ++ ".png") ;;
    ext E plt_close.

(** Lines 94-104. *)
Definition heatmap (E : oracle) (df : DataFrame) (file_name : string)
    : M unit :=
  ext E (plt_figure 8 6) ;;
  let numeric_data := select_dtypes [number] df in
  if (shape1 numeric_data <? 2)%nat then
    print (Text ("Not enough numeric data in " ++ file_name ++ "."))
  else
    ext E numeric_data_corr ;;
    ext E sns_heatmap ;;
    ext E (plt_title ("Heatmap - " ++ file_name)) ;;
    savefig E ("heatmap_" ++ file_name ++ ".png") ;;
    ext E plt_close.

(** Lines 125-130 of the first [main]. *)
Definition charts (E : oracle) (df : DataFrame) (file_name : string) : M unit :=
  plot_relational_plot E df ;;
  plot_statistical_plot E df ;;
  plot_categorical_plot E df ;;
  scatter_plot E df file_name ;;
  heatmap E df file_name ;;
  bar_plot E df file_name.

(** Lines 106-132. *)
Definition main (E : oracle) (csv : read_csv_result) : M unit :=
  let file_name := "data.csv" in
  match csv with
  | ReadError e =>
      match exn_cls e with
      | FileNotFoundError =>
          print (Text ("File " ++ file_name ++ " not found."))
      | ParserError =>
          print (Text ("Error reading " ++ file_name ++ ", check formatting."))
      | _ => fun w => (Raised e, w)
      end
  | Parsed df =>
      df <- preprocessing E df ;;
      let num_cols := columns (select_dtypes [number] df) in
      if (length num_cols =? 0)%nat then
        print (Text ("No numeric data in " ++ file_name ++ "."))
      else
        selected_col <- index_getitem num_cols 0 ;;
        charts E df file_name ;;
        moments <- statistical_analysis df selected_col ;;
        writing (Some moments) selected_col
  end.

End Plain.

(** ** Vocabulary of the statements *)

(** The three tables are computed without a fault. *)
Definition diagnostics_ok (E : oracle) : Prop :=
  E df_describe = None /\ E df_head = None /\ E df_corr = None.

(** The world [w] after more output, log records, files and calls. *)
Definition emit (w : world) (out : list output) (recs : list (level * string))
    (fs : list string) (cs : list ext_call) : world :=
  mk_world (stdout w ++ out) (log w ++ recs) (files w ++ fs) (calls w ++ cs).

(** The world after a successful [preprocessing]. *)
Definition after_preprocessing (w : world) : world :=
  emit w [Table describe; Table head; Table corr]
         [(INFO, "Data preprocessing completed successfully.")]
         []
         [df_describe; df_head; df_corr].

(** How many columns each chart can choose from. *)
Definition numeric_count (df : DataFrame) : nat :=
  length (filter (has_dtype [number]) (df_columns df)).

Definition categorical_count (df : DataFrame) : nat :=
  length (filter (has_dtype [object; category]) (df_columns df)).

(** [name] is the first column of [cols], in file order, whose dtype is in
    [include]; [first_two] names the first and the second such column. *)
Definition first_eligible (include : list dtype) (cols : list (string * series))
    (name : string) : Prop :=
  exists before s after,
    cols = (before ++ (name, s) :: after)%list
    /\ has_dtype include (name, s) = true
    /\ forallb (fun c => negb (has_dtype include c)) before = true.

Definition first_two (include : list dtype) (cols : list (string * series))
    (x y : string) : Prop :=
  exists before sx between sy after,
    cols = (before ++ (x, sx) :: between ++ (y, sy) :: after)%list
    /\ has_dtype include (x, sx) = true
    /\ has_dtype include (y, sy) = true
    /\ forallb (fun c => negb (has_dtype include c)) before = true
    /\ forallb (fun c => negb (has_dtype include c)) between = true.

(** A computation that returns normally from every world. *)
Definition never_raises (m : M unit) : Prop :=
  forall w, exists w', m w = (Ok tt, w').

(** What a run [r] started in [w] did to the image files and the log. *)
Definition writes (r : result unit * world) (w : world) (f : string) : Prop :=
  files (snd r) = (files w ++ [f])%list.

Definition writes_nothing (r : result unit * world) (w : world) : Prop :=
  files (snd r) = files w.

(** The skip diagnostic [msg]: printed, and logged as a warning. *)
Definition warns (r : result unit * world) (w : world) (msg : string) : Prop :=
  stdout (snd r) = (stdout w ++ [Text msg])%list
  /\ log (snd r) = (log w ++ [(WARNING, msg)])%list.

(** The skip diagnostics among the log records. *)
Definition warnings (recs : list (level * string)) : list (level * string) :=
  filter (fun r => match fst r with WARNING => true | _ => false end) recs.

(** The world once [main] has logged that the file was read. *)
Definition loaded (w : world) : world :=
  mk_world (stdout w)
           (log w ++ [(INFO, "Data loaded from data.csv successfully.")])
           (files w) (calls w).

(** An oracle under which reading the first rows of the frame faults. *)
Definition head_faults : oracle :=
  fun c => match c with df_head => Some "unreadable cell" | _ => None end.


(** ** Sample frames *)

(** Four rows; rows 1 and 2 each have a missing cell. *)
Definition sample : DataFrame :=
  mk_df [0; 1; 2; 3]
        [("height", Numeric [fin 1; nan; fin 3; fin 5]);
         ("city", Object [Some "york"; Some "leeds"; None; Some "york"]);
         ("weight", Numeric [fin 2; fin 4; fin 6; fin 9]);
         ("member", Boolean [true; false; true; true])].

(** [sample] after cleaning. *)
Definition sample_clean : DataFrame :=
  mk_df [0; 3]
        [("height", Numeric [fin 1; fin 5]);
         ("city", Object [Some "york"; Some "york"]);
         ("weight", Numeric [fin 2; fin 9]);
         ("member", Boolean [true; true])].


(** One numeric column, no text column. *)
Definition one_numeric : DataFrame :=
  mk_df [0; 1; 2] [("height", Numeric [fin 1; fin 2; fin 4])].

(** The world after the chart calls of [main] on a frame with one numeric
    column and no categorical column, when no rendering call faults. *)
Definition after_degenerate_charts (w : world) (fn : string) : world :=
  emit w
    [Text ("Insufficient numerical columns in " ++ fn ++ ".");
     Text ("Not enough numeric data in " ++ fn ++ ".");
     Text ("No categorical data in " ++ fn ++ ".")]
    [(INFO, "Relational plot saved successfully.");
     (INFO, "Statistical plot saved successfully.");
     (INFO, "Categorical plot saved successfully.");
     (WARNING, "Insufficient numerical columns in " ++ fn ++ ".");
     (WARNING, "Not enough numeric data in " ++ fn ++ ".");
     (WARNING, "No categorical data in " ++ fn ++ ".")]
    ["relational_plot.png"; "statistical_plot.png"; "categorical_plot.png"]
    [plt_subplots; plt_savefig "relational_plot.png";
     plt_subplots; plt_savefig "statistical_plot.png";
     plt_subplots; plt_savefig "categorical_plot.png";
     plt_figure 8 6; plt_figure 8 6; plt_figure 10 6].

(** ** Vocabulary of the further properties *)

(** The error records among the log records. *)
Definition errors (recs : list (level * string)) : list (level * string) :=
  filter (fun r => match fst r with ERROR => true | _ => false end) recs.

(** The library calls each chart function makes, in order, up to and
    including [plt.savefig]. *)
Definition scatter_calls (x y fn : string) : list ext_call :=
  [plt_figure 8 6; sns_scatterplot x y; plt_xlabel x; plt_ylabel y;
   plt_title ("Scatter Plot - " ++ fn); plt_grid;
   plt_savefig ("scatter_" ++ fn ++ ".png")].

Definition bar_calls (x fn : string) : list ext_call :=
  [plt_figure 10 6; sns_countplot x; plt_xlabel x; plt_ylabel "Count";
   plt_title ("Bar Chart - " ++ fn); plt_xticks; plt_grid;
   plt_savefig ("bar_" ++ fn ++ ".png")].

Definition heatmap_calls (fn : string) : list ext_call :=
  [plt_figure 8 6; numeric_data_corr; sns_heatmap;
   plt_title ("Heatmap - " ++ fn); plt_savefig ("heatmap_" ++ fn ++ ".png")].

(** None of the calls [cs] faults. *)
Definition all_succeed (E : oracle) (cs : list ext_call) : Prop :=
  Forall (fun c => E c = None) cs.

(** A run of a chart function: it returned, and left one log record [l, s]. *)
Definition one_record (r : result unit * world) (w : world)
    (l : level) (s : string) : Prop :=
  fst r = Ok tt /\ log (snd r) = app (log w) [(l, s)].

(** Two worlds with the same console, image files and library calls. *)
Definition same_output (w1 w2 : world) : Prop :=
  stdout w1 = stdout w2 /\ files w1 = files w2 /\ calls w1 = calls w2.

(** [l] is [p] with logging and a handler: from worlds with the same
    output, [l] ends with the console, files and calls of [p], returns
    normally, and adds one log record where [p] adds none; the record is an
    error exactly when [p] raised. *)
Definition logged_version (p l : M unit) : Prop :=
  forall w1 w2, same_output w1 w2 ->
    exists lv s,
      l w2 = (Ok tt, mk_world (stdout (snd (p w1)))
                              (log w2 ++ [(lv, s)])
                              (files (snd (p w1)))
                              (calls (snd (p w1))))
      /\ log (snd (p w1)) = log w1
      /\ (lv = ERROR <-> exists e, fst (p w1) = Raised e).

(** An oracle under which only [plt.close()] faults. *)
Definition close_faults : oracle :=
  fun c => match c with plt_close => Some "close failed" | _ => None end.

(** No numeric column. *)
Definition text_only : DataFrame :=
  mk_df [0; 1] [("city", Object [Some "york"; None])].

(** Three rows, each with a missing cell. *)
Definition all_incomplete : DataFrame :=
  mk_df [0; 1; 2]
        [("height", Numeric [nan; fin 2; fin 3]);
         ("city", Object [Some "york"; None; None])].

(** * Properties *)

(** ** Masks and zips *)

Lemma zip_with_nil_r {A B C} (f : A -> B -> C) (l : list A) :
  zip_with f l [] = [].
Proof. destruct l; reflexivity. Qed.

Lemma take_mask_nil_r {A} (mask : list bool) : take_mask mask (@nil A) = [].
Proof. destruct mask as [|[] ?]; reflexivity. Qed.

Section MaskFacts.
Context {A B C : Type}.

Lemma take_mask_zip_with (f : A -> B -> C) (mask : list bool) :
  forall (l : list A) (m : list B),
    take_mask mask (zip_with f l m)
    = zip_with f (take_mask mask l) (take_mask mask m).
Proof.
  induction mask as [|b mask IH]; intros l m.
  - reflexivity.
  - destruct l as [|x l]; [now rewrite !take_mask_nil_r|].
    destruct m as [|y m].
    + simpl. rewrite zip_with_nil_r. now destruct b.
    + simpl. destruct b; simpl; now rewrite IH.
Qed.

Lemma take_mask_combine (mask : list bool) :
  forall (l : list A) (m : list B),
    take_mask mask (combine l m)
    = combine (take_mask mask l) (take_mask mask m).
Proof.
  induction mask as [|b mask IH]; intros l m.
  - reflexivity.
  - destruct l as [|x l]; [now rewrite take_mask_nil_r|].
    destruct m as [|y m].
    + simpl. destruct b; simpl; [reflexivity|].
      now destruct (take_mask mask l).
    + simpl. destruct b; simpl; now rewrite IH.
Qed.

Lemma take_mask_map (f : A -> B) (mask : list bool) :
  forall l : list A, take_mask mask (map f l) = map f (take_mask mask l).
Proof.
  induction mask as [|b mask IH]; intros [|x l]; simpl; try reflexivity.
  destruct b; simpl; now rewrite IH.
Qed.

Lemma take_mask_repeat (x : B) (mask : list bool) :
  forall l : list A,
    take_mask mask (repeat x (length l))
    = repeat x (length (take_mask mask l)).
Proof.
  induction mask as [|b mask IH]; intros [|y l]; simpl; try reflexivity.
  destruct b; simpl; now rewrite IH.
Qed.

Lemma take_mask_length (mask : list bool) :
  forall (l : list A) (m : list B),
    length l = length m ->
    length (take_mask mask l) = length (take_mask mask m).
Proof.
  induction mask as [|b mask IH]; intros [|x l] [|y m] H; simpl in *;
    try reflexivity; try discriminate.
  injection H as H. destruct b; simpl; now rewrite (IH l m H).
Qed.

Lemma take_mask_all_true :
  forall l : list A, take_mask (repeat true (length l)) l = l.
Proof. induction l as [|x l IH]; simpl; now rewrite ?IH. Qed.

(** Selecting by a mask computed from the second components is a filter. *)
Lemma take_mask_filter (p : B -> bool) :
  forall (m : list B) (l : list A),
    take_mask (map p m) (combine l m)
    = filter (fun r => p (snd r)) (combine l m).
Proof.
  induction m as [|y m IH]; intros [|x l]; simpl; try reflexivity.
  now rewrite IH.
Qed.
End MaskFacts.

Lemma forallb_zip_cons {A} (p : A -> bool) :
  forall (cs : list A) (acc : list (list A)),
    map (forallb p) (zip_with cons cs acc)
    = zip_with andb (map p cs) (map (forallb p) acc).
Proof.
  induction cs as [|c cs IH]; intros [|r acc]; simpl; try reflexivity.
  now rewrite IH.
Qed.

Lemma all_true_repeat :
  forall l : list bool,
    forallb (fun b => b) l = true -> l = repeat true (length l).
Proof.
  induction l as [|b l IH]; simpl; intros H; [reflexivity|].
  apply andb_true_iff in H as [-> H]. now rewrite <- IH.
Qed.

Lemma zip_andb_repeat_true (n : nat) :
  zip_with andb (repeat true n) (repeat true n) = repeat true n.
Proof. induction n; simpl; now rewrite ?IHn. Qed.

(** A mask below a list of flags keeps only flags that are set. *)
Lemma take_mask_below :
  forall mask flags : list bool,
    forallb (fun b => b) (zip_with implb mask flags) = true ->
    forallb (fun b => b) (take_mask mask flags) = true.
Proof.
  induction mask as [|m mask IH]; intros [|f flags] H; simpl in *;
    try reflexivity.
  apply andb_true_iff in H as [Hm H].
  destruct m; simpl; [|now apply IH].
  simpl in Hm. rewrite Hm. now apply IH.
Qed.

Lemma zip_andb_below_l :
  forall a acc : list bool,
    forallb (fun b => b) (zip_with implb (zip_with andb a acc) a) = true.
Proof.
  induction a as [|x a IH]; intros [|y acc]; simpl; try reflexivity.
  rewrite IH. now destruct x, y.
Qed.

Lemma zip_andb_below_r :
  forall a acc flags : list bool,
    forallb (fun b => b) (zip_with implb acc flags) = true ->
    forallb (fun b => b) (zip_with implb (zip_with andb a acc) flags) = true.
Proof.
  induction a as [|x a IH]; intros [|y acc] [|f flags] H; simpl in *;
    try reflexivity.
  apply andb_true_iff in H as [Hy H].
  rewrite (IH _ _ H). now destruct x, y, f.
Qed.

(** ** Series under a mask *)

Lemma series_notna_cells (s : series) :
  series_notna s = map cell_notna (series_cells s).
Proof.
  destruct s as [xs|xs|xs|xs]; simpl; rewrite map_map; apply map_ext;
    intros []; reflexivity.
Qed.

Lemma series_cells_take (mask : list bool) (s : series) :
  series_cells (series_take mask s) = take_mask mask (series_cells s).
Proof. destruct s; simpl; now rewrite take_mask_map. Qed.

Lemma series_notna_take (mask : list bool) (s : series) :
  series_notna (series_take mask s) = take_mask mask (series_notna s).
Proof. destruct s; simpl; now rewrite take_mask_map. Qed.

Lemma series_dtype_take (mask : list bool) (s : series) :
  series_dtype (series_take mask s) = series_dtype s.
Proof. now destruct s. Qed.

Lemma series_length_take (mask : list bool) (s : series) (idx : list nat) :
  series_length s = length idx ->
  series_length (series_take mask s) = length (take_mask mask idx).
Proof. destruct s; simpl; apply take_mask_length. Qed.

Lemma series_take_all_true (s : series) :
  series_take (repeat true (series_length s)) s = s.
Proof. destruct s; simpl; now rewrite take_mask_all_true. Qed.

Lemma series_notna_length (s : series) :
  length (series_notna s) = series_length s.
Proof. destruct s; simpl; apply length_map. Qed.

(** ** Cleaning: [dropna] and [preprocessing] *)

Lemma transpose_take (mask : list bool) (idx : list nat) :
  forall cols,
    transpose (length (take_mask mask idx))
              (map (fun c => (fst c, series_take mask (snd c))) cols)
    = take_mask mask (transpose (length idx) cols).
Proof.
  unfold transpose.
  induction cols as [|c cols IH]; simpl.
  - now rewrite take_mask_repeat.
  - now rewrite IH, series_cells_take, take_mask_zip_with.
Qed.

Lemma rows_loc_mask (mask : list bool) (df : DataFrame) :
  rows (loc_mask mask df) = take_mask mask (rows df).
Proof.
  unfold rows, loc_mask; simpl.
  now rewrite transpose_take, take_mask_combine.
Qed.

(** The mask of [dropna] says, row by row, that no cell is missing. *)
Lemma notna_all_transpose (df : DataFrame) :
  notna_all df
  = map (forallb cell_notna) (transpose (length (df_index df)) (df_columns df)).
Proof.
  unfold notna_all, transpose.
  induction (df_columns df) as [|c cols IH]; simpl.
  - now rewrite map_repeat.
  - now rewrite IH, forallb_zip_cons, series_notna_cells.
Qed.

Lemma rows_dropna (df : DataFrame) :
  rows (dropna df) = filter row_complete (rows df).
Proof.
  unfold dropna. rewrite rows_loc_mask, notna_all_transpose.
  unfold rows. apply take_mask_filter.
Qed.

Lemma columns_loc_mask (mask : list bool) (df : DataFrame) :
  columns (loc_mask mask df) = columns df.
Proof. unfold columns, loc_mask; simpl. now rewrite map_map. Qed.

Lemma dtypes_loc_mask (mask : list bool) (df : DataFrame) :
  dtypes (loc_mask mask df) = dtypes df.
Proof.
  unfold dtypes, loc_mask; simpl. rewrite map_map. apply map_ext.
  intros c; simpl. apply series_dtype_take.
Qed.

Lemma wf_loc_mask (mask : list bool) (df : DataFrame) :
  wf df -> wf (loc_mask mask df).
Proof.
  unfold wf, loc_mask; simpl. intros H.
  apply Forall_map. eapply Forall_impl; [|exact H].
  intros c Hc; simpl. now apply series_length_take.
Qed.

Lemma notna_all_below (n : nat) (cols : list (string * series)) :
  forall c, In c cols ->
    forallb (fun b => b)
      (zip_with implb
         (fold_right (fun c acc => zip_with andb (series_notna (snd c)) acc)
                     (repeat true n) cols)
         (series_notna (snd c))) = true.
Proof.
  induction cols as [|c0 cols IH]; intros c Hin; [destruct Hin|].
  destruct Hin as [->|Hin]; simpl.
  - apply zip_andb_below_l.
  - apply zip_andb_below_r. now apply IH.
Qed.

Lemma dropna_no_missing (df : DataFrame) : no_missing (dropna df).
Proof.
  intros c Hin. unfold dropna, loc_mask in Hin; simpl in Hin.
  apply in_map_iff in Hin as [c0 [<- Hin]]; simpl.
  rewrite series_notna_take. apply take_mask_below.
  now apply notna_all_below.
Qed.

Lemma notna_all_clean (df : DataFrame) :
  wf df -> no_missing df ->
  notna_all df = repeat true (length (df_index df)).
Proof.
  unfold wf, no_missing, notna_all.
  induction (df_columns df) as [|c cols IH]; intros Hwf Hna; [reflexivity|].
  simpl. inversion Hwf as [|? ? Hc Hcols]; subst.
  rewrite IH; [|assumption|intros; apply Hna; now right].
  rewrite (all_true_repeat _ (Hna c (or_introl eq_refl))).
  rewrite series_notna_length, Hc. apply zip_andb_repeat_true.
Qed.

Lemma loc_mask_all_true (df : DataFrame) :
  wf df -> loc_mask (repeat true (length (df_index df))) df = df.
Proof.
  destruct df as [idx cols]; unfold wf, loc_mask; simpl. intros Hwf.
  rewrite take_mask_all_true. f_equal.
  induction Hwf as [|[n s] cols Hc _ IH]; simpl in *; [reflexivity|].
  rewrite IH, <- Hc. now rewrite series_take_all_true.
Qed.

Lemma dropna_clean (df : DataFrame) :
  wf df -> no_missing df -> dropna df = df.
Proof.
  intros Hwf Hna. unfold dropna.
  rewrite notna_all_clean by assumption. now apply loc_mask_all_true.
Qed.

Lemma dropna_idempotent (df : DataFrame) :
  wf df -> dropna (dropna df) = dropna df.
Proof.
  intros Hwf. apply dropna_clean.
  - now apply wf_loc_mask.
  - apply dropna_no_missing.
Qed.

Lemma preprocessing_ok (E : oracle) (df : DataFrame) (w : world) :
  diagnostics_ok E ->
  preprocessing E df w = (Ok (Some (dropna df)), after_preprocessing w).
Proof.
  intros (Hd & Hh & Hc).
  unfold preprocessing, try_except, bind, ext, print, logger, ret; simpl.
  rewrite Hd, Hh, Hc; simpl.
  unfold after_preprocessing, emit. now rewrite <- !app_assoc, app_nil_r.
Qed.

(** Whatever the oracle does, [preprocessing] returns: a frame or [None]. *)
Lemma preprocessing_returns (E : oracle) (df : DataFrame) (w : world) :
  fst (preprocessing E df w) = Ok (Some (dropna df))
  \/ fst (preprocessing E df w) = Ok None.
Proof.
  unfold preprocessing, try_except, bind, ext, print, logger, ret; simpl.
  destruct (E df_describe); simpl; [now right|].
  destruct (E df_head); simpl; [now right|].
  destruct (E df_corr); simpl; [now right|now left].
Qed.

Example dropna_sample : dropna sample = sample_clean.
Proof. reflexivity. Qed.

Example rows_sample_clean :
  rows sample_clean
  = [(0, [Num 1; Str "york"; Num 2; Bool true]);
     (3, [Num 5; Str "york"; Num 9; Bool true])].
Proof. reflexivity. Qed.


Lemma diagnostics_ok_quiet : diagnostics_ok quiet.
Proof. repeat split. Qed.

(** C7.  Whenever [preprocessing] returns a frame [d] (it does so exactly when
    none of its three diagnostics faults), the rows of [d] are the rows of
    the input that have no missing cell, in their order and with their
    labels, and [d] has the columns of the input, same names, same dtypes,
    same order: cleaning removes rows only. *)
Theorem preprocessing_keeps_complete_rows
    (E : oracle) (df : DataFrame) (w : world) :
  (forall d w', preprocessing E df w = (Ok (Some d), w') ->
     rows d = filter row_complete (rows df)
     /\ columns d = columns df
     /\ dtypes d = dtypes df)
  /\ (diagnostics_ok E ->
      exists d, preprocessing E df w = (Ok (Some d), after_preprocessing w)).
Proof.
  split.
  - intros d w' Hrun.
    assert (Hd : d = dropna df).
    { destruct (preprocessing_returns E df w) as [H|H];
        rewrite Hrun in H; simpl in H; congruence. }
    subst d. split; [apply rows_dropna|].
    split; [apply columns_loc_mask|apply dtypes_loc_mask].
  - intros HE. exists (dropna df). now apply preprocessing_ok.
Qed.

Lemma preprocessing_keeps_complete_rows_sample :
  (forall d w', preprocessing quiet sample empty_world = (Ok (Some d), w') ->
     rows d = filter row_complete (rows sample)
     /\ columns d = columns sample
     /\ dtypes d = dtypes sample)
  /\ (diagnostics_ok quiet ->
      exists d, preprocessing quiet sample empty_world
                = (Ok (Some d), after_preprocessing empty_world)).
Proof.
  exact (preprocessing_keeps_complete_rows quiet sample empty_world).
Defined.

(** C9.  On a frame that has no missing cell, [dropna] is the identity and
    [preprocessing] returns the frame it was given; and cleaning what
    [preprocessing] returned gives that same frame again. *)
Theorem preprocessing_idempotent (df : DataFrame) :
  wf df ->
  (no_missing df ->
   dropna df = df
   /\ forall E w, diagnostics_ok E ->
        preprocessing E df w = (Ok (Some df), after_preprocessing w))
  /\ dropna (dropna df) = dropna df
  /\ (forall E w d w1,
        preprocessing E df w = (Ok (Some d), w1) ->
        forall E', diagnostics_ok E' ->
          preprocessing E' d w1 = (Ok (Some d), after_preprocessing w1)).
Proof.
  intros Hwf. split; [|split].
  - intros Hna.
    pose proof (dropna_clean df Hwf Hna) as Hid.
    split; [exact Hid|].
    intros E w HE. rewrite <- Hid at 2. now apply preprocessing_ok.
  - now apply dropna_idempotent.
  - intros E w d w1 Hrun E' HE'.
    assert (Hd : d = dropna df).
    { destruct (preprocessing_returns E df w) as [H|H];
        rewrite Hrun in H; simpl in H; congruence. }
    rewrite (preprocessing_ok E' d w1 HE'). subst d.
    now rewrite dropna_idempotent.
Qed.

Lemma wf_sample_clean : wf sample_clean.
Proof. repeat constructor. Qed.

Lemma no_missing_sample_clean : no_missing sample_clean.
Proof.
  intros c Hin; simpl in Hin.
  repeat (destruct Hin as [<-|Hin]; [reflexivity|]). destruct Hin.
Qed.

Lemma preprocessing_idempotent_sample :
  wf sample_clean
  /\ no_missing sample_clean
  /\ dropna sample_clean = sample_clean
  /\ preprocessing quiet sample_clean empty_world
     = (Ok (Some sample_clean), after_preprocessing empty_world)
  /\ dropna (dropna sample_clean) = dropna sample_clean.
Proof.
  pose proof (preprocessing_idempotent sample_clean wf_sample_clean)
    as (Hclean & Hdd & _).
  destruct (Hclean no_missing_sample_clean) as (Hid & Hpp).
  split; [exact wf_sample_clean|]. split; [exact no_missing_sample_clean|].
  split; [exact Hid|]. split; [|exact Hdd].
  apply Hpp, diagnostics_ok_quiet.
Defined.

(** ** Running the chart functions *)

#[local] Arguments String.append : simpl never.

Ltac run_quiet HE :=
  repeat (progress (unfold try_except, bind, ext, savefig, write_file, print, logger, ret,
                      index_getitem; simpl; rewrite ?HE)).

Ltac world_eq :=
  unfold emit; simpl; repeat rewrite <- app_assoc; repeat rewrite app_nil_r;
  simpl; reflexivity.

Lemma never_raises_try (body : M unit) (l : level) (f : exn -> string) :
  never_raises (try_except body (fun e => logger l (f e))).
Proof.
  intros w. unfold try_except.
  destruct (body w) as [[[]|e] w1]; eexists; reflexivity.
Qed.

Lemma never_raises_seq (m k : M unit) :
  never_raises m -> never_raises k -> never_raises (m ;; k).
Proof.
  intros Hm Hk w. unfold bind.
  destruct (Hm w) as [w1 ->]. apply Hk.
Qed.

Lemma charts_never_raise (E : oracle) (df : DataFrame) (fn : string) :
  never_raises (charts E df fn).
Proof.
  unfold charts.
  repeat (apply never_raises_seq; [apply never_raises_try|]).
  apply never_raises_try.
Qed.

Lemma app_one_neq {A} (l : list A) (a : A) : (l ++ [a])%list <> l.
Proof.
  intros H. apply (f_equal (@length A)) in H.
  rewrite length_app in H; simpl in H; lia.
Qed.

Lemma placeholder_quiet (E : oracle) (f ok bad : string) (w : world) :
  no_fault E ->
  try_except (ext E plt_subplots ;; savefig E f ;; logger INFO ok)
             (fun e => logger ERROR (bad ++ exn_str e)) w
  = (Ok tt, emit w [] [(INFO, ok)] [f] [plt_subplots; plt_savefig f]).
Proof. intros HE. run_quiet HE. f_equal. world_eq. Qed.

Lemma scatter_plot_skip (E : oracle) (df : DataFrame) (fn : string) (w : world) :
  E (plt_figure 8 6) = None ->
  numeric_count df < 2 ->
  scatter_plot E df fn w
  = (Ok tt,
     emit w [Text ("Insufficient numerical columns in " ++ fn ++ ".")]
            [(WARNING, "Insufficient numerical columns in " ++ fn ++ ".")]
            [] [plt_figure 8 6]).
Proof.
  intros HE Hn. unfold scatter_plot, columns, select_dtypes; simpl.
  rewrite length_map.
  apply Nat.ltb_lt in Hn. unfold numeric_count in Hn.
  unfold try_except, bind, ext. rewrite HE, Hn.
  unfold print, logger; simpl. f_equal. world_eq.
Qed.

Lemma scatter_plot_draw (E : oracle) (df : DataFrame) (fn : string) (w : world)
    (x y : string) (rest : list string) :
  no_fault E ->
  columns (select_dtypes [number] df) = x :: y :: rest ->
  scatter_plot E df fn w
  = (Ok tt,
     emit w []
            [(INFO, "Scatter plot for " ++ fn ++ " saved successfully.")]
            ["scatter_" ++ fn ++ ".png"]
            [plt_figure 8 6; sns_scatterplot x y; plt_xlabel x; plt_ylabel y;
             plt_title ("Scatter Plot - " ++ fn); plt_grid;
             plt_savefig ("scatter_" ++ fn ++ ".png"); plt_close]).
Proof.
  intros HE Hc. unfold scatter_plot. rewrite Hc.
  run_quiet HE. f_equal. world_eq.
Qed.

Lemma bar_plot_skip (E : oracle) (df : DataFrame) (fn : string) (w : world) :
  E (plt_figure 10 6) = None ->
  categorical_count df = 0 ->
  bar_plot E df fn w
  = (Ok tt,
     emit w [Text ("No categorical data in " ++ fn ++ ".")]
            [(WARNING, "No categorical data in " ++ fn ++ ".")]
            [] [plt_figure 10 6]).
Proof.
  intros HE Hn. unfold bar_plot, columns, select_dtypes; simpl.
  rewrite length_map.
  apply Nat.eqb_eq in Hn. unfold categorical_count in Hn.
  unfold try_except, bind, ext. rewrite HE, Hn.
  unfold print, logger; simpl. f_equal. world_eq.
Qed.

Lemma bar_plot_draw (E : oracle) (df : DataFrame) (fn : string) (w : world)
    (x : string) (rest : list string) :
  no_fault E ->
  columns (select_dtypes [object; category] df) = x :: rest ->
  bar_plot E df fn w
  = (Ok tt,
     emit w []
            [(INFO, "Bar chart for " ++ fn ++ " saved successfully.")]
            ["bar_" ++ fn ++ ".png"]
            [plt_figure 10 6; sns_countplot x; plt_xlabel x; plt_ylabel "Count";
             plt_title ("Bar Chart - " ++ fn); plt_xticks; plt_grid;
             plt_savefig ("bar_" ++ fn ++ ".png"); plt_close]).
Proof.
  intros HE Hc. unfold bar_plot. rewrite Hc.
  run_quiet HE. f_equal. world_eq.
Qed.

Lemma heatmap_skip (E : oracle) (df : DataFrame) (fn : string) (w : world) :
  E (plt_figure 8 6) = None ->
  numeric_count df < 2 ->
  heatmap E df fn w
  = (Ok tt,
     emit w [Text ("Not enough numeric data in " ++ fn ++ ".")]
            [(WARNING, "Not enough numeric data in " ++ fn ++ ".")]
            [] [plt_figure 8 6]).
Proof.
  intros HE Hn. unfold heatmap, shape1, select_dtypes; simpl.
  apply Nat.ltb_lt in Hn. unfold numeric_count in Hn.
  unfold try_except, bind, ext. rewrite HE, Hn.
  unfold print, logger; simpl. f_equal. world_eq.
Qed.

Lemma heatmap_draw (E : oracle) (df : DataFrame) (fn : string) (w : world) :
  no_fault E ->
  2 <= numeric_count df ->
  heatmap E df fn w
  = (Ok tt,
     emit w []
            [(INFO, "Heatmap for " ++ fn ++ " saved successfully.")]
            ["heatmap_" ++ fn ++ ".png"]
            [plt_figure 8 6; numeric_data_corr; sns_heatmap;
             plt_title ("Heatmap - " ++ fn);
             plt_savefig ("heatmap_" ++ fn ++ ".png"); plt_close]).
Proof.
  intros HE Hn. unfold heatmap, shape1, select_dtypes; simpl.
  assert (Hlt : (numeric_count df <? 2)%nat = false) by (apply Nat.ltb_ge; lia).
  unfold numeric_count in Hlt.
  unfold try_except, bind at 1, ext at 1. rewrite HE, Hlt.
  run_quiet HE. f_equal. world_eq.
Qed.

(** Enough columns: the names the chart functions index exist. *)
Lemma two_numeric_names (df : DataFrame) :
  2 <= numeric_count df ->
  exists x y rest, columns (select_dtypes [number] df) = x :: y :: rest.
Proof.
  unfold numeric_count, columns, select_dtypes; simpl.
  destruct (filter _ _) as [|[x sx] [|[y sy] rest]]; simpl; try lia.
  intros _. now exists x, y, (map fst rest).
Qed.

Lemma one_categorical_name (df : DataFrame) :
  1 <= categorical_count df ->
  exists x rest, columns (select_dtypes [object; category] df) = x :: rest.
Proof.
  unfold categorical_count, columns, select_dtypes; simpl.
  destruct (filter _ _) as [|[x sx] rest]; simpl; try lia.
  intros _. now exists x, (map fst rest).
Qed.

Lemma no_fault_quiet : no_fault quiet.
Proof. intros c. reflexivity. Qed.

(** C1.  When no rendering call faults: [scatter_plot] writes
    [scatter_<file_name>.png] exactly when the frame has at least two numeric
    columns, and otherwise writes nothing, prints and logs "Insufficient
    numerical columns in <file_name>." and returns; [bar_plot] writes
    [bar_<file_name>.png] exactly when there is at least one object or
    category column, and otherwise skips with "No categorical data in
    <file_name>."; [heatmap] writes [heatmap_<file_name>.png] exactly when
    there are at least two numeric columns, and otherwise skips with "Not
    enough numeric data in <file_name>.". *)
Theorem chart_written_iff_enough_columns
    (E : oracle) (df : DataFrame) (fn : string) (w : world) :
  no_fault E ->
  ((writes (scatter_plot E df fn w) w ("scatter_" ++ fn ++ ".png")
    <-> 2 <= numeric_count df)
   /\ (numeric_count df < 2 ->
       fst (scatter_plot E df fn w) = Ok tt
       /\ writes_nothing (scatter_plot E df fn w) w
       /\ warns (scatter_plot E df fn w) w
                ("Insufficient numerical columns in " ++ fn ++ ".")))
  /\ ((writes (bar_plot E df fn w) w ("bar_" ++ fn ++ ".png")
       <-> 1 <= categorical_count df)
      /\ (categorical_count df = 0 ->
          fst (bar_plot E df fn w) = Ok tt
          /\ writes_nothing (bar_plot E df fn w) w
          /\ warns (bar_plot E df fn w) w
                   ("No categorical data in " ++ fn ++ ".")))
  /\ ((writes (heatmap E df fn w) w ("heatmap_" ++ fn ++ ".png")
       <-> 2 <= numeric_count df)
      /\ (numeric_count df < 2 ->
          fst (heatmap E df fn w) = Ok tt
          /\ writes_nothing (heatmap E df fn w) w
          /\ warns (heatmap E df fn w) w
                   ("Not enough numeric data in " ++ fn ++ "."))).
Proof.
  intros HE. unfold writes, writes_nothing, warns.
  split; [|split].
  - split.
    + split.
      * intros Hw. destruct (le_lt_dec 2 (numeric_count df)) as [|Hlt]; [assumption|].
        rewrite (scatter_plot_skip E df fn w (HE _) Hlt) in Hw; simpl in Hw.
        rewrite app_nil_r in Hw. symmetry in Hw. now apply app_one_neq in Hw.
      * intros Hge. destruct (two_numeric_names df Hge) as (x & y & rest & Hc).
        now rewrite (scatter_plot_draw E df fn w x y rest HE Hc).
    + intros Hlt. rewrite (scatter_plot_skip E df fn w (HE _) Hlt); simpl.
      now rewrite app_nil_r.
  - split.
    + split.
      * intros Hw. destruct (categorical_count df) as [|n] eqn:Hn; [|lia].
        rewrite (bar_plot_skip E df fn w (HE _) Hn) in Hw; simpl in Hw.
        rewrite app_nil_r in Hw. symmetry in Hw. now apply app_one_neq in Hw.
      * intros Hge. destruct (one_categorical_name df Hge) as (x & rest & Hc).
        now rewrite (bar_plot_draw E df fn w x rest HE Hc).
    + intros Hz. rewrite (bar_plot_skip E df fn w (HE _) Hz); simpl.
      now rewrite app_nil_r.
  - split.
    + split.
      * intros Hw. destruct (le_lt_dec 2 (numeric_count df)) as [|Hlt]; [assumption|].
        rewrite (heatmap_skip E df fn w (HE _) Hlt) in Hw; simpl in Hw.
        rewrite app_nil_r in Hw. symmetry in Hw. now apply app_one_neq in Hw.
      * intros Hge. now rewrite (heatmap_draw E df fn w HE Hge).
    + intros Hlt. rewrite (heatmap_skip E df fn w (HE _) Hlt); simpl.
      now rewrite app_nil_r.
Qed.

Lemma chart_written_iff_enough_columns_sample :
  no_fault quiet
  /\ (writes (scatter_plot quiet sample "data.csv" empty_world) empty_world
             "scatter_data.csv.png"
      <-> 2 <= numeric_count sample)
  /\ (writes (bar_plot quiet one_numeric "data.csv" empty_world) empty_world
             "bar_data.csv.png"
      <-> 1 <= categorical_count one_numeric).
Proof.
  split; [exact no_fault_quiet|]. split.
  - exact (proj1 (proj1 (chart_written_iff_enough_columns
                           quiet sample "data.csv" empty_world no_fault_quiet))).
  - exact (proj1 (proj1 (proj2 (chart_written_iff_enough_columns
                                  quiet one_numeric "data.csv" empty_world
                                  no_fault_quiet)))).
Defined.

Example sample_scatter_written :
  files (snd (scatter_plot quiet sample "data.csv" empty_world))
  = ["scatter_data.csv.png"].
Proof. reflexivity. Qed.

Example one_numeric_bar_skipped :
  bar_plot quiet one_numeric "data.csv" empty_world
  = (Ok tt, mk_world [Text "No categorical data in data.csv."]
                     [(WARNING, "No categorical data in data.csv.")]
                     [] [plt_figure 10 6]).
Proof. reflexivity. Qed.

(** ** The chart calls of [main] on a degenerate frame *)

Lemma charts_degenerate (E : oracle) (df : DataFrame) (fn : string) (w : world) :
  no_fault E ->
  numeric_count df = 1 ->
  categorical_count df = 0 ->
  charts E df fn w = (Ok tt, after_degenerate_charts w fn).
Proof.
  intros HE Hn Hc.
  assert (Hlt : numeric_count df < 2) by lia.
  unfold charts, plot_relational_plot, plot_statistical_plot,
    plot_categorical_plot.
  unfold bind at 1. rewrite (placeholder_quiet E _ _ _ w HE).
  unfold bind at 1. rewrite (placeholder_quiet E _ _ _ _ HE).
  unfold bind at 1. rewrite (placeholder_quiet E _ _ _ _ HE).
  unfold bind at 1. rewrite (scatter_plot_skip E df fn _ (HE _) Hlt).
  unfold bind at 1. rewrite (heatmap_skip E df fn _ (HE _) Hlt).
  rewrite (bar_plot_skip E df fn _ (HE _) Hc).
  f_equal. unfold after_degenerate_charts. world_eq.
Qed.

(** C4, as the code has it.  On a frame with exactly one numeric column and
    no categorical column the six chart calls of [main] never raise,
    whatever rendering call faults.  When none faults, the scatter, heatmap
    and bar files are not written, the three unconditional overview charts
    [relational_plot.png], [statistical_plot.png] and [categorical_plot.png]
    are, and exactly three warnings are logged, in the order scatter,
    heatmap, bar. *)
Theorem charts_on_degenerate_frame
    (E : oracle) (df : DataFrame) (fn : string) (w : world) :
  numeric_count df = 1 ->
  categorical_count df = 0 ->
  (exists w', charts E df fn w = (Ok tt, w'))
  /\ (no_fault E ->
      files (snd (charts E df fn w))
      = (files w ++ ["relational_plot.png"; "statistical_plot.png";
                     "categorical_plot.png"])%list
      /\ warnings (log (snd (charts E df fn w)))
         = app (warnings (log w))
               [(WARNING, "Insufficient numerical columns in " ++ fn ++ ".");
                (WARNING, "Not enough numeric data in " ++ fn ++ ".");
                (WARNING, "No categorical data in " ++ fn ++ ".")]
      /\ charts E df fn w = (Ok tt, after_degenerate_charts w fn)).
Proof.
  intros Hn Hc. split; [apply charts_never_raise|].
  intros HE. rewrite (charts_degenerate E df fn w HE Hn Hc); simpl.
  split; [reflexivity|]. split; [|reflexivity].
  unfold warnings. now rewrite filter_app.
Qed.

Lemma charts_on_degenerate_frame_one_numeric :
  numeric_count one_numeric = 1
  /\ categorical_count one_numeric = 0
  /\ charts quiet one_numeric "data.csv" empty_world
     = (Ok tt, after_degenerate_charts empty_world "data.csv").
Proof.
  split; [reflexivity|]. split; [reflexivity|].
  apply (charts_on_degenerate_frame quiet one_numeric "data.csv" empty_world
           eq_refl eq_refl).
  exact no_fault_quiet.
Defined.

(** C4 as stated fails: on a frame with one numeric column and no categorical
    column the chart calls write three image files. *)
Lemma charts_degenerate_writes_files :
  numeric_count one_numeric = 1
  /\ categorical_count one_numeric = 0
  /\ files (snd (charts quiet one_numeric "data.csv" empty_world))
     = ["relational_plot.png"; "statistical_plot.png"; "categorical_plot.png"]
  /\ files (snd (charts quiet one_numeric "data.csv" empty_world)) <> [].
Proof.
  assert (Hf : files (snd (charts quiet one_numeric "data.csv" empty_world))
               = ["relational_plot.png"; "statistical_plot.png";
                  "categorical_plot.png"]) by reflexivity.
  split; [reflexivity|]. split; [reflexivity|].
  split; [exact Hf|]. rewrite Hf. intros H. inversion H.
Qed.

(** ** The report *)

Lemma writing_some (m0 m1 m2 m3 : float) (col : string) (w : world) :
  writing (Some (m0, m1, m2, m3)) col w
  = (Ok tt,
     emit w [Text ("For the attribute " ++ col ++ ":");
             MomentsText m0 m1 m2 m3;
             Text ("The data is " ++ skew_desc m2 ++ " and "
                   ++ kurtosis_desc m3 ++ ".")]
            [(INFO, "Statistical moments for column " ++ col
                    ++ " printed successfully.")]
            [] []).
Proof.
  unfold writing, try_except, bind, subscript, print, logger, ret; simpl.
  f_equal. world_eq.
Qed.

Lemma gt0_pos (r : R) : (0 < r)%R -> gt0 (fin r) = true.
Proof. intros H; simpl. destruct (Rlt_dec 0 r); [reflexivity|contradiction]. Qed.

Lemma gt0_nonpos (r : R) : (r <= 0)%R -> gt0 (fin r) = false.
Proof. intros H; simpl. destruct (Rlt_dec 0 r); [lra|reflexivity]. Qed.

Lemma lt0_neg (r : R) : (r < 0)%R -> lt0 (fin r) = true.
Proof. intros H; simpl. destruct (Rlt_dec r 0); [reflexivity|contradiction]. Qed.

Lemma lt0_nonneg (r : R) : (0 <= r)%R -> lt0 (fin r) = false.
Proof. intros H; simpl. destruct (Rlt_dec r 0); [lra|reflexivity]. Qed.

(** C2.  The two labels are functions of the skewness and of the excess
    kurtosis alone, with the thresholds exactly at zero: positive, negative
    and zero skewness give "Right-skewed", "Left-skewed" and "Symmetrical";
    positive, negative and zero excess kurtosis give "Leptokurtic",
    "Platykurtic" and "Mesokurtic"; [writing] prints the two labels of the
    pair it is given, and for the pair (0, 0) prints "The data is Symmetrical
    and Mesokurtic.". *)
Theorem shape_labels_thresholds (skew kurt : R) :
  ((0 < skew)%R -> skew_desc (fin skew) = "Right-skewed")
  /\ ((skew < 0)%R -> skew_desc (fin skew) = "Left-skewed")
  /\ skew_desc (fin 0) = "Symmetrical"
  /\ ((0 < kurt)%R -> kurtosis_desc (fin kurt) = "Leptokurtic")
  /\ ((kurt < 0)%R -> kurtosis_desc (fin kurt) = "Platykurtic")
  /\ kurtosis_desc (fin 0) = "Mesokurtic"
  /\ (forall m0 m1 col w,
        stdout (snd (writing (Some (m0, m1, fin skew, fin kurt)) col w))
        = app (stdout w)
              [Text ("For the attribute " ++ col ++ ":");
               MomentsText m0 m1 (fin skew) (fin kurt);
               Text ("The data is " ++ skew_desc (fin skew) ++ " and "
                     ++ kurtosis_desc (fin kurt) ++ ".")])
  /\ (forall m0 m1 col w,
        stdout (snd (writing (Some (m0, m1, fin 0, fin 0)) col w))
        = app (stdout w)
              [Text ("For the attribute " ++ col ++ ":");
               MomentsText m0 m1 (fin 0) (fin 0);
               Text "The data is Symmetrical and Mesokurtic."]).
Proof.
  assert (Hs0 : skew_desc (fin 0) = "Symmetrical").
  { unfold skew_desc. rewrite gt0_nonpos, lt0_nonneg by lra. reflexivity. }
  assert (Hk0 : kurtosis_desc (fin 0) = "Mesokurtic").
  { unfold kurtosis_desc. rewrite gt0_nonpos, lt0_nonneg by lra. reflexivity. }
  repeat split.
  - intros H. unfold skew_desc. now rewrite gt0_pos.
  - intros H. unfold skew_desc. rewrite gt0_nonpos by lra. now rewrite lt0_neg.
  - exact Hs0.
  - intros H. unfold kurtosis_desc. now rewrite gt0_pos.
  - intros H. unfold kurtosis_desc. rewrite gt0_nonpos by lra. now rewrite lt0_neg.
  - exact Hk0.
  - intros m0 m1 col w. now rewrite writing_some.
  - intros m0 m1 col w. rewrite writing_some; simpl. now rewrite Hs0, Hk0.
Qed.

Example skew_desc_right : skew_desc (fin 1.5) = "Right-skewed".
Proof. unfold skew_desc. rewrite gt0_pos by lra. reflexivity. Qed.

Example skew_desc_left : skew_desc (fin (-0.2)) = "Left-skewed".
Proof.
  unfold skew_desc. rewrite gt0_nonpos by lra. rewrite lt0_neg by lra.
  reflexivity.
Qed.

(** Every float, nan included, gets one of the three labels. *)
Lemma skew_desc_total (x : float) :
  skew_desc x = "Right-skewed" \/ skew_desc x = "Left-skewed"
  \/ skew_desc x = "Symmetrical".
Proof.
  unfold skew_desc. destruct (gt0 x); [now left|].
  destruct (lt0 x); [right; now left|right; now right].
Qed.

Lemma statistical_analysis_missing_column
    (df : DataFrame) (col : string) (w : world) :
  lookup col (df_columns df) = None ->
  statistical_analysis df col w
  = (Ok None,
     emit w [] [(ERROR, "Failed to perform statistical analysis for column "
                        ++ col ++ ": " ++ ("'" ++ col ++ "'"))] [] []).
Proof.
  intros Hl.
  unfold statistical_analysis, try_except, bind at 1, getitem. rewrite Hl.
  unfold raise, bind, logger, ret; simpl. f_equal. world_eq.
Qed.

(** C10.  [writing None col] does not raise: subscripting [None] is caught
    inside [writing], which has by then printed only the heading line, logs
    one error record in place of the moments and the shape sentence, and
    returns.  So when [statistical_analysis] hands [None] to [writing], the
    two calls of [main] return normally. *)
Theorem writing_none_returns (col : string) (w : world) :
  writing None col w
  = (Ok tt,
     emit w [Text ("For the attribute " ++ col ++ ":")]
            [(ERROR, "Failed to print statistical moments for column " ++ col
                     ++ ": 'NoneType' object is not subscriptable")]
            [] [])
  /\ (forall df w0,
        statistical_analysis df col w0 = (Ok None, w) ->
        exists w',
          (moments <- statistical_analysis df col ;; writing moments col) w0
          = (Ok tt, w')
          /\ stdout w' = app (stdout w) [Text ("For the attribute " ++ col ++ ":")]).
Proof.
  assert (Hrun : writing None col w
                 = (Ok tt,
                    emit w [Text ("For the attribute " ++ col ++ ":")]
                      [(ERROR, "Failed to print statistical moments for column "
                               ++ col
                               ++ ": 'NoneType' object is not subscriptable")]
                      [] [])).
  { unfold writing, try_except, bind, subscript, raise, print, logger; simpl.
    f_equal. world_eq. }
  split; [exact Hrun|].
  intros df w0 Hstat. eexists. unfold bind. rewrite Hstat, Hrun.
  split; reflexivity.
Qed.

Example statistical_analysis_unknown_column :
  fst (statistical_analysis sample "age" empty_world) = Ok None.
Proof. now rewrite statistical_analysis_missing_column. Qed.

(** ** [main] after a failed [preprocessing] *)

(** C3, on the code.  When [preprocessing] has caught a fault and returned
    [None], [main] does not end the run in an orderly way: its next
    statement calls [select_dtypes] on [None], and the [AttributeError]
    leaves [main] uncaught. *)
Theorem main_after_failed_preprocessing
    (E : oracle) (df : DataFrame) (w w1 : world) :
  preprocessing E df (loaded w) = (Ok None, w1) ->
  main E (Parsed df) w
  = (Raised (mk_exn AttributeError
                    "'NoneType' object has no attribute 'select_dtypes'"),
     w1).
Proof.
  intros Hpre. unfold main.
  unfold bind at 1. change (logger INFO _ w) with (Ok tt, loaded w).
  unfold bind at 1. now rewrite Hpre.
Qed.

Lemma main_after_failed_preprocessing_sample :
  preprocessing head_faults sample (loaded empty_world)
  = (Ok None,
     mk_world [Table describe]
              [(INFO, "Data loaded from data.csv successfully.");
               (ERROR, "Failed to preprocess data: unreadable cell")]
              [] [df_describe; df_head])
  /\ fst (main head_faults (Parsed sample) empty_world)
     = Raised (mk_exn AttributeError
                      "'NoneType' object has no attribute 'select_dtypes'").
Proof.
  split; [reflexivity|].
  now rewrite (main_after_failed_preprocessing head_faults sample empty_world
                 _ eq_refl).
Defined.

(** ** Which columns are chosen *)

Lemma filter_first (p : string * series -> bool) :
  forall (l : list (string * series)) (x : string) (rest : list string),
    map fst (filter p l) = x :: rest ->
    exists before s after,
      l = (before ++ (x, s) :: after)%list
      /\ p (x, s) = true
      /\ forallb (fun c => negb (p c)) before = true
      /\ map fst (filter p after) = rest.
Proof.
  induction l as [|[n s] l IH]; intros x rest H; simpl in H; [discriminate|].
  destruct (p (n, s)) eqn:Hp.
  - simpl in H. injection H as -> Hrest.
    exists [], s, l. now rewrite Hp.
  - destruct (IH x rest H) as (before & s' & after & -> & Hx & Hb & Hr).
    exists ((n, s) :: before), s', after. simpl. now rewrite Hp, Hb.
Qed.

Lemma filter_none {A} (p : A -> bool) (l : list A) :
  forallb (fun c => negb (p c)) l = true -> filter p l = [].
Proof.
  induction l as [|a l IH]; simpl; [reflexivity|].
  intros H. apply andb_true_iff in H as [Ha Hl].
  apply negb_true_iff in Ha. rewrite Ha. now apply IH.
Qed.

Lemma first_eligible_head (include : list dtype) (cols : list (string * series))
    (c : string) :
  first_eligible include cols c ->
  exists rest, map fst (filter (has_dtype include) cols) = c :: rest.
Proof.
  intros (before & s & after & -> & Hc & Hb).
  rewrite filter_app, (filter_none _ _ Hb); simpl. rewrite Hc; simpl.
  now eexists.
Qed.

Lemma head_first_eligible (include : list dtype) (df : DataFrame)
    (x : string) (rest : list string) :
  columns (select_dtypes include df) = x :: rest ->
  first_eligible include (df_columns df) x.
Proof.
  unfold columns, select_dtypes; simpl. intros H.
  destruct (filter_first _ _ _ _ H) as (before & s & after & Hl & Hx & Hb & _).
  now exists before, s, after.
Qed.


Lemma has_dtype_take (include : list dtype) (mask : list bool)
    (c : string * series) :
  has_dtype include (fst c, series_take mask (snd c)) = has_dtype include c.
Proof. unfold has_dtype; simpl. now rewrite series_dtype_take. Qed.

Lemma columns_select_loc_mask (include : list dtype) (mask : list bool)
    (df : DataFrame) :
  columns (select_dtypes include (loc_mask mask df))
  = columns (select_dtypes include df).
Proof.
  unfold columns, select_dtypes, loc_mask; simpl.
  induction (df_columns df) as [|c cols IH]; [reflexivity|].
  cbn [map filter]. rewrite has_dtype_take.
  destruct (has_dtype include c); cbn [map fst]; now rewrite IH.
Qed.


(** *** Rules for [calls_only] *)

Section CallRules.
Context (Q : ext_call -> Prop) (E : oracle).










End CallRules.




Lemma statistical_analysis_numeric
    (df : DataFrame) (col : string) (xs : list float) (w : world) :
  lookup col (df_columns df) = Some (Numeric xs) ->
  statistical_analysis df col w
  = (Ok (Some (nanmean xs, nanstd xs,
               skew_array (remove_nans xs), kurtosis_array (remove_nans xs))),
     emit w [] [(INFO, "Statistical analysis for column " ++ col
                       ++ " completed successfully.")] [] []).
Proof.
  intros Hl.
  unfold statistical_analysis, try_except, getitem. rewrite Hl.
  unfold bind, Series_mean, Series_std, ss_skew, ss_kurtosis, lift, bind, ret,
    logger; simpl.
  f_equal. world_eq.
Qed.

Lemma main_selected_column
    (E : oracle) (df : DataFrame) (w : world) (c : string) :
  diagnostics_ok E ->
  first_eligible [number] (df_columns df) c ->
  main E (Parsed df) w
  = (charts E (dropna df) "data.csv" ;;
     moments <- statistical_analysis (dropna df) c ;;
     writing moments c) (after_preprocessing (loaded w)).
Proof.
  intros HE Hc. unfold main.
  unfold bind at 1. change (logger INFO _ w) with (Ok tt, loaded w).
  unfold bind at 1. rewrite (preprocessing_ok E df (loaded w) HE).
  unfold dropna at 1 2. rewrite columns_select_loc_mask.
  destruct (first_eligible_head _ _ _ Hc) as (rest & Hrest).
  change (columns (select_dtypes [number] df) = c :: rest) in Hrest.
  rewrite Hrest. reflexivity.
Qed.


Lemma main_report
    (E : oracle) (df : DataFrame) (w : world) (c : string) (xs : list float) :
  diagnostics_ok E ->
  first_eligible [number] (df_columns df) c ->
  lookup c (df_columns (dropna df)) = Some (Numeric xs) ->
  exists w2,
    charts E (dropna df) "data.csv" (after_preprocessing (loaded w)) = (Ok tt, w2)
    /\ main E (Parsed df) w
       = (Ok tt,
          emit w2
            [Text ("For the attribute " ++ c ++ ":");
             MomentsText (nanmean xs) (nanstd xs)
                         (skew_array (remove_nans xs))
                         (kurtosis_array (remove_nans xs));
             Text ("The data is " ++ skew_desc (skew_array (remove_nans xs))
                   ++ " and " ++ kurtosis_desc (kurtosis_array (remove_nans xs))
                   ++ ".")]
            [(INFO, "Statistical analysis for column " ++ c
                    ++ " completed successfully.");
             (INFO, "Statistical moments for column " ++ c
                    ++ " printed successfully.")]
            [] []).
Proof.
  intros HE Hc Hl.
  destruct (charts_never_raise E (dropna df) "data.csv"
              (after_preprocessing (loaded w))) as [w2 Hw2].
  exists w2. split; [exact Hw2|].
  rewrite (main_selected_column E df w c HE Hc).
  unfold bind at 1. rewrite Hw2.
  unfold bind. rewrite (statistical_analysis_numeric _ _ _ _ Hl).
  rewrite writing_some. f_equal. world_eq.
Qed.


Example sample_first_numeric : first_eligible [number] (df_columns sample) "height".
Proof. now exists [], (Numeric [fin 1; nan; fin 3; fin 5]), (tl (df_columns sample)). Qed.

Example sample_first_two_numeric :
  first_two [number] (df_columns sample) "height" "weight".
Proof.
  exists [], (Numeric [fin 1; nan; fin 3; fin 5]),
    [("city", Object [Some "york"; Some "leeds"; None; Some "york"])],
    (Numeric [fin 2; fin 4; fin 6; fin 9]),
    [("member", Boolean [true; false; true; true])].
  now repeat split.
Qed.

Example sample_scatter_calls :
  calls (snd (scatter_plot quiet sample "data.csv" empty_world))
  = [plt_figure 8 6; sns_scatterplot "height" "weight"; plt_xlabel "height";
     plt_ylabel "weight"; plt_title "Scatter Plot - data.csv"; plt_grid;
     plt_savefig "scatter_data.csv.png"; plt_close].
Proof. reflexivity. Qed.

Example sample_report_heading :
  nth_error (stdout (snd (main quiet (Parsed sample) empty_world))) 3
  = Some (Text "For the attribute height:").
Proof. reflexivity. Qed.

(** ** The moments *)





Section NearlyConstant.
Local Open Scope R_scope.

(** A constant column has no skewness. *)
Example skew_constant_column : skew_array [5; 5] = nan.
Proof.
  unfold skew_array.
  destruct (Rle_dec (moment 2 [5; 5]) ((resolution * np_mean [5; 5]) ^ 2))
    as [_|Hn]; [reflexivity|].
  exfalso. apply Hn.
  replace (moment 2 [5; 5]) with 0
    by (unfold moment, np_mean; simpl; field).
  apply pow2_ge_0.
Qed.

(** Nor has a nearly constant one: three different values near 2^53. *)
Example skew_nearly_constant_column :
  skew_array [9007199254740992; 9007199254740994; 9007199254740996] = nan.
Proof.
  unfold skew_array.
  match goal with
  | |- (if Rle_dec ?a ?b then _ else _) = _ =>
      destruct (Rle_dec a b) as [_|Hn]; [reflexivity|]
  end.
  exfalso. apply Hn.
  replace (np_mean [9007199254740992; 9007199254740994; 9007199254740996])
    with 9007199254740994 by (unfold np_mean; simpl; field).
  replace (moment 2 [9007199254740992; 9007199254740994; 9007199254740996])
    with (8 / 3) by (unfold moment, np_mean; simpl; field).
  unfold resolution. field_simplify. lra.
Qed.

End NearlyConstant.

(** * Further properties of the code *)

(** ** What [statistical_analysis], [writing] and [preprocessing] touch *)

Lemma statistical_analysis_text
    (df : DataFrame) (col : string) (s : series) (w : world) :
  lookup col (df_columns df) = Some s ->
  series_dtype s = object \/ series_dtype s = category ->
  statistical_analysis df col w
  = (Ok None,
     emit w [] [(ERROR, "Failed to perform statistical analysis for column "
                        ++ col ++ ": " ++ "could not convert to numeric")]
            [] []).
Proof.
  intros Hl Hs.
  unfold statistical_analysis, try_except, bind at 1, getitem. rewrite Hl.
  destruct s; simpl in Hs; destruct Hs as [Hs|Hs]; try discriminate;
    unfold bind, Series_mean, lift, bind, ret, logger; simpl;
    f_equal; world_eq.
Qed.

Lemma statistical_analysis_boolean
    (df : DataFrame) (col : string) (bs : list bool) (w : world) :
  lookup col (df_columns df) = Some (Boolean bs) ->
  exists r,
    statistical_analysis df col w
    = (Ok (Some r),
       emit w [] [(INFO, "Statistical analysis for column " ++ col
                         ++ " completed successfully.")] [] []).
Proof.
  intros Hl.
  unfold statistical_analysis, try_except, getitem. rewrite Hl.
  unfold bind, Series_mean, Series_std, ss_skew, ss_kurtosis, lift, bind, ret,
    logger; simpl.
  eexists. f_equal. world_eq.
Qed.

(** [statistical_analysis] returns from every frame and column, and leaves
    one log record and nothing else. *)
Lemma statistical_analysis_returns (df : DataFrame) (col : string) (w : world) :
  exists r l s,
    statistical_analysis df col w = (Ok r, emit w [] [(l, s)] [] [])
    /\ (r = None <-> l = ERROR).
Proof.
  destruct (lookup col (df_columns df)) as [[xs|xs|xs|bs]|] eqn:Hl.
  - rewrite (statistical_analysis_numeric df col xs w Hl).
    do 3 eexists. split; [reflexivity|]. split; discriminate.
  - rewrite (statistical_analysis_text df col _ w Hl (or_introl eq_refl)).
    do 3 eexists. split; [reflexivity|]. now split.
  - rewrite (statistical_analysis_text df col _ w Hl (or_intror eq_refl)).
    do 3 eexists. split; [reflexivity|]. now split.
  - destruct (statistical_analysis_boolean df col bs w Hl) as [r ->].
    do 3 eexists. split; [reflexivity|]. split; discriminate.
  - rewrite (statistical_analysis_missing_column df col w Hl).
    do 3 eexists. split; [reflexivity|]. now split.
Qed.

Lemma writing_none (col : string) (w : world) :
  writing None col w
  = (Ok tt,
     emit w [Text ("For the attribute " ++ col ++ ":")]
            [(ERROR, "Failed to print statistical moments for column " ++ col
                     ++ ": 'NoneType' object is not subscriptable")]
            [] []).
Proof.
  unfold writing, try_except, bind, subscript, raise, print, logger; simpl.
  f_equal. world_eq.
Qed.

Lemma writing_returns (m : option moments_t) (col : string) (w : world) :
  exists out l s, writing m col w = (Ok tt, emit w out [(l, s)] [] []).
Proof.
  destruct m as [[[[m0 m1] m2] m3]|].
  - rewrite writing_some. now do 3 eexists.
  - rewrite writing_none. now do 3 eexists.
Qed.

Lemma preprocessing_fault (E : oracle) (df : DataFrame) (w : world) :
  ~ diagnostics_ok E ->
  exists out s cs,
    preprocessing E df w = (Ok None, emit w out [(ERROR, s)] [] cs).
Proof.
  intros HE.
  unfold preprocessing, try_except, bind, ext, print, logger, ret; simpl.
  destruct (E df_describe) eqn:Hd; simpl.
  { exists [], ("Failed to preprocess data: " ++ s), [df_describe].
    f_equal. world_eq. }
  destruct (E df_head) eqn:Hh; simpl.
  { exists [Table describe], ("Failed to preprocess data: " ++ s),
      [df_describe; df_head].
    f_equal. world_eq. }
  destruct (E df_corr) eqn:Hc; simpl.
  { exists [Table describe; Table head], ("Failed to preprocess data: " ++ s),
      [df_describe; df_head; df_corr].
    f_equal. world_eq. }
  elim HE. now repeat split.
Qed.

(** X1.  [statistical_analysis] fails only by returning [None]: for a column that
    does not exist it logs the [KeyError], for a text column the
    [TypeError]; it never raises, prints nothing, writes no file, and leaves
    exactly one log record, an error one exactly when the result is [None]. *)
Theorem statistical_analysis_failure_modes
    (df : DataFrame) (col : string) (w : world) :
  (lookup col (df_columns df) = None ->
   statistical_analysis df col w
   = (Ok None,
      emit w [] [(ERROR, "Failed to perform statistical analysis for column "
                         ++ col ++ ": " ++ ("'" ++ col ++ "'"))] [] []))
  /\ (forall s, lookup col (df_columns df) = Some s ->
        series_dtype s = object \/ series_dtype s = category ->
        exists msg,
          statistical_analysis df col w
          = (Ok None,
             emit w [] [(ERROR,
                         "Failed to perform statistical analysis for column "
                         ++ col ++ ": " ++ msg)] [] []))
  /\ (exists r l s,
        statistical_analysis df col w = (Ok r, emit w [] [(l, s)] [] [])
        /\ (r = None <-> l = ERROR)).
Proof.
  split; [|split].
  - apply statistical_analysis_missing_column.
  - intros s Hl Hs. rewrite (statistical_analysis_text df col s w Hl Hs).
    now eexists.
  - apply statistical_analysis_returns.
Qed.

(** X2.  [preprocessing] never raises and writes no file.  It returns [None]
    exactly when one of its three diagnostics faults, and then its single log
    record is an error; otherwise it returns [dropna] of its argument. *)
Theorem preprocessing_none_iff_fault (E : oracle) (df : DataFrame) (w : world) :
  exists r out l s cs,
    preprocessing E df w = (Ok r, emit w out [(l, s)] [] cs)
    /\ (r = None <-> ~ diagnostics_ok E)
    /\ (r = Some (dropna df) <-> diagnostics_ok E)
    /\ (l = ERROR <-> ~ diagnostics_ok E).
Proof.
  destruct (E df_describe) eqn:Hd;
    [|destruct (E df_head) eqn:Hh; [|destruct (E df_corr) eqn:Hc]].
  4: { assert (HE : diagnostics_ok E) by now repeat split.
       rewrite (preprocessing_ok E df w HE).
       do 5 eexists. split; [reflexivity|].
       repeat split; try discriminate; intros; try reflexivity; try assumption;
         contradiction. }
  all: assert (HE : ~ diagnostics_ok E) by (intros (H1 & H2 & H3); congruence);
    destruct (preprocessing_fault E df w HE) as (out & s' & cs & ->);
    do 5 eexists; (split; [reflexivity|]);
    repeat split; try discriminate; intros; try reflexivity; try assumption;
    contradiction.
Qed.

Lemma take_mask_shorter {A} (mask : list bool) :
  forall l : list A, length (take_mask mask l) <= length l.
Proof.
  induction mask as [|b mask IH]; intros [|x l]; simpl; try lia.
  specialize (IH l). destruct b; simpl; lia.
Qed.

Lemma numeric_count_dropna (df : DataFrame) :
  numeric_count (dropna df) = numeric_count df
  /\ categorical_count (dropna df) = categorical_count df.
Proof.
  split.
  - pose proof (columns_select_loc_mask [number] (notna_all df) df) as H.
    apply (f_equal (@length string)) in H.
    unfold columns, select_dtypes in H; simpl in H.
    now rewrite !length_map in H.
  - pose proof (columns_select_loc_mask [object; category] (notna_all df) df)
      as H.
    apply (f_equal (@length string)) in H.
    unfold columns, select_dtypes in H; simpl in H.
    now rewrite !length_map in H.
Qed.

(** X3.  The frame [preprocessing] returns has no missing cell in any column, has
    no more rows than its argument, is rectangular when the argument is, and
    has as many numeric and as many categorical columns: cleaning does not
    change which charts can be drawn. *)
Theorem preprocessing_result_clean
    (E : oracle) (df d : DataFrame) (w w' : world) :
  preprocessing E df w = (Ok (Some d), w') ->
  no_missing d
  /\ length (df_index d) <= length (df_index df)
  /\ (wf df -> wf d)
  /\ numeric_count d = numeric_count df
  /\ categorical_count d = categorical_count df.
Proof.
  intros Hrun.
  assert (Hd : d = dropna df).
  { destruct (preprocessing_returns E df w) as [H|H];
      rewrite Hrun in H; simpl in H; congruence. }
  subst d. split; [apply dropna_no_missing|].
  split; [apply take_mask_shorter|].
  split; [apply wf_loc_mask|apply numeric_count_dropna].
Qed.

Lemma preprocessing_result_clean_sample :
  preprocessing quiet sample empty_world
  = (Ok (Some sample_clean), after_preprocessing empty_world)
  /\ no_missing sample_clean
  /\ length (df_index sample_clean) <= length (df_index sample)
  /\ (wf sample -> wf sample_clean)
  /\ numeric_count sample_clean = numeric_count sample
  /\ categorical_count sample_clean = categorical_count sample.
Proof.
  split; [reflexivity|].
  exact (preprocessing_result_clean quiet sample sample_clean empty_world
           (after_preprocessing empty_world) eq_refl).
Defined.

(** ** The paths of [main] *)

(** X4.  When the frame has no numeric column, [main] prints and logs "No numeric
    data in data.csv." after the diagnostics and returns: no chart function
    is called, no file is written and no report is printed. *)
Theorem main_no_numeric_column (E : oracle) (df : DataFrame) (w : world) :
  diagnostics_ok E ->
  numeric_count df = 0 ->
  main E (Parsed df) w
  = (Ok tt,
     emit w [Table describe; Table head; Table corr;
             Text "No numeric data in data.csv."]
            [(INFO, "Data loaded from data.csv successfully.");
             (INFO, "Data preprocessing completed successfully.");
             (WARNING, "No numeric data in data.csv.")]
            []
            [df_describe; df_head; df_corr]).
Proof.
  intros HE Hn. unfold main.
  unfold bind at 1. change (logger INFO _ w) with (Ok tt, loaded w).
  unfold bind at 1. rewrite (preprocessing_ok E df (loaded w) HE).
  assert (Hz : length (columns (select_dtypes [number] (dropna df))) = 0).
  { unfold columns, select_dtypes; simpl. rewrite length_map.
    change (numeric_count (dropna df) = 0).
    now rewrite (proj1 (numeric_count_dropna df)). }
  rewrite Hz; simpl.
  unfold bind, print, logger, after_preprocessing, loaded; simpl.
  f_equal. world_eq.
Qed.

Lemma main_no_numeric_column_sample :
  diagnostics_ok quiet
  /\ numeric_count text_only = 0
  /\ files (snd (main quiet (Parsed text_only) empty_world)) = [].
Proof.
  split; [exact diagnostics_ok_quiet|]. split; [reflexivity|].
  now rewrite (main_no_numeric_column quiet text_only empty_world
                 diagnostics_ok_quiet eq_refl).
Defined.

Lemma one_numeric_name (df : DataFrame) :
  1 <= numeric_count df ->
  exists c rest, columns (select_dtypes [number] df) = c :: rest.
Proof.
  unfold numeric_count, columns, select_dtypes; simpl.
  destruct (filter _ _) as [|[c sc] rest]; simpl; try lia.
  intros _. now exists c, (map fst rest).
Qed.

Lemma main_returns (E : oracle) (df : DataFrame) (w : world) :
  diagnostics_ok E -> exists w', main E (Parsed df) w = (Ok tt, w').
Proof.
  intros HE. destruct (numeric_count df) as [|n] eqn:Hn.
  - rewrite (main_no_numeric_column E df w HE Hn). now eexists.
  - destruct (one_numeric_name df) as (c & rest & Hc); [lia|].
    apply head_first_eligible in Hc.
    rewrite (main_selected_column E df w c HE Hc).
    unfold bind at 1.
    destruct (charts_never_raise E (dropna df) "data.csv"
                (after_preprocessing (loaded w))) as [w2 ->].
    unfold bind.
    destruct (statistical_analysis_returns (dropna df) c w2)
      as (r & l & s & -> & _).
    destruct (writing_returns r c (emit w2 [] [(l, s)] [] []))
      as (out & l' & s' & ->).
    now eexists.
Qed.

Lemma preprocessing_none_iff_fault_aux (E : oracle) (df : DataFrame) (w : world) :
  diagnostics_ok E \/ exists w1, preprocessing E df w = (Ok None, w1).
Proof.
  destruct (E df_describe) eqn:Hd;
    [|destruct (E df_head) eqn:Hh; [|destruct (E df_corr) eqn:Hc]].
  4: left; now repeat split.
  all: right;
    assert (HE : ~ diagnostics_ok E) by (intros (H1 & H2 & H3); congruence);
    destruct (preprocessing_fault E df w HE) as (out & s' & cs & ->);
    now eexists.
Qed.

(** X5.  When reading the file fails, [main] calls no library function and writes
    no file, whatever the exception.  For [FileNotFoundError] it prints and
    logs "File data.csv not found.", for [ParserError] "Error reading
    data.csv, check formatting.", and returns. *)
Theorem main_read_failure (E : oracle) (e : exn) (w : world) :
  files (snd (main E (ReadError e) w)) = files w
  /\ calls (snd (main E (ReadError e) w)) = calls w
  /\ (exn_cls e = FileNotFoundError ->
      main E (ReadError e) w
      = (Ok tt, emit w [Text "File data.csv not found."]
                       [(ERROR, "File data.csv not found.")] [] []))
  /\ (exn_cls e = ParserError ->
      main E (ReadError e) w
      = (Ok tt, emit w [Text "Error reading data.csv, check formatting."]
                       [(ERROR, "Error reading data.csv, check formatting.")]
                       [] [])).
Proof.
  unfold main. destruct (exn_cls e) eqn:Hc; simpl;
    repeat split; try discriminate; intros _;
    unfold bind, print, logger; simpl; f_equal; world_eq.
Qed.

(** X6.  [main] raises in two cases only: reading the file failed with an
    exception other than [FileNotFoundError] and [ParserError], which then
    leaves [main] as it came; or the file was read and one of the diagnostics
    of [preprocessing] faulted, and then the exception is the
    [AttributeError] of calling [select_dtypes] on [None].  No rendering
    fault, no missing column and no undefined statistic makes [main] raise. *)
Theorem main_raises_only_on_read_or_preprocessing (E : oracle) (w : world) :
  (forall e,
     (exists w', main E (ReadError e) w = (Ok tt, w'))
     <-> exn_cls e = FileNotFoundError \/ exn_cls e = ParserError)
  /\ (forall e,
        exn_cls e <> FileNotFoundError -> exn_cls e <> ParserError ->
        main E (ReadError e) w = (Raised e, w))
  /\ (forall df,
        (exists w', main E (Parsed df) w = (Ok tt, w')) <-> diagnostics_ok E)
  /\ (forall df e w',
        main E (Parsed df) w = (Raised e, w') ->
        e = mk_exn AttributeError
                   "'NoneType' object has no attribute 'select_dtypes'").
Proof.
  split; [|split; [|split]].
  - intros e. unfold main. destruct (exn_cls e) eqn:Hc; simpl; split;
      try (intros [w' H]; discriminate);
      try (intros [H|H]; discriminate);
      try (intros _; now left); try (intros _; now right);
      intros _; eexists; reflexivity.
  - intros e Hf Hp. unfold main. destruct (exn_cls e); try reflexivity;
      contradiction.
  - intros df. split.
    + intros [w' Hrun].
      destruct (preprocessing_none_iff_fault_aux E df (loaded w))
        as [HE|(w1 & Hnone)]; [exact HE|].
      unfold main in Hrun. unfold bind at 1 in Hrun.
      change (logger INFO _ w) with (Ok tt, loaded w) in Hrun.
      unfold bind at 1 in Hrun. rewrite Hnone in Hrun. discriminate.
    + apply main_returns.
  - intros df e w' Hrun.
    destruct (preprocessing_none_iff_fault_aux E df (loaded w))
      as [HE|(w1 & Hnone)].
    + destruct (main_returns E df w HE) as [w2 Hok]. congruence.
    + unfold main in Hrun. unfold bind at 1 in Hrun.
      change (logger INFO _ w) with (Ok tt, loaded w) in Hrun.
      unfold bind at 1 in Hrun. rewrite Hnone in Hrun.
      unfold raise in Hrun. congruence.
Qed.

(** ** The chart functions under any fault *)

Ltac unfold_run :=
  repeat (progress (unfold try_except, bind, ext, savefig, write_file, print,
                      logger, ret, index_getitem; simpl)).

Ltac fault_cases E :=
  repeat match goal with
         | |- context [E ?c] =>
             let H := fresh "HE" in destruct (E c) eqn:H; simpl
         end.

Ltac all_succeed_clash :=
  match goal with
  | H : all_succeed _ _ |- _ =>
      unfold all_succeed, scatter_calls, bar_calls, heatmap_calls in H;
      repeat match goal with
             | H' : Forall _ (_ :: _) |- _ => inversion H'; clear H'; subst
             end;
      congruence
  end.

Lemma scatter_plot_file (E : oracle) (df : DataFrame) (fn : string) (w : world)
    (x y : string) (rest : list string) :
  columns (select_dtypes [number] df) = x :: y :: rest ->
  (writes (scatter_plot E df fn w) w ("scatter_" ++ fn ++ ".png")
   <-> all_succeed E (scatter_calls x y fn))
  /\ (~ all_succeed E (scatter_calls x y fn) ->
      writes_nothing (scatter_plot E df fn w) w).
Proof.
  intros Hc. unfold writes, writes_nothing, scatter_plot. rewrite Hc.
  unfold_run. fault_cases E.
  all: split; [split|]; intros H;
    try reflexivity;
    try (symmetry in H; now apply app_one_neq in H);
    try all_succeed_clash;
    try (elim H; unfold all_succeed, scatter_calls; now repeat constructor);
    try (unfold all_succeed, scatter_calls; now repeat constructor).
Qed.

Lemma bar_plot_file (E : oracle) (df : DataFrame) (fn : string) (w : world)
    (x : string) (rest : list string) :
  columns (select_dtypes [object; category] df) = x :: rest ->
  (writes (bar_plot E df fn w) w ("bar_" ++ fn ++ ".png")
   <-> all_succeed E (bar_calls x fn))
  /\ (~ all_succeed E (bar_calls x fn) ->
      writes_nothing (bar_plot E df fn w) w).
Proof.
  intros Hc. unfold writes, writes_nothing, bar_plot. rewrite Hc.
  unfold_run. fault_cases E.
  all: split; [split|]; intros H;
    try reflexivity;
    try (symmetry in H; now apply app_one_neq in H);
    try all_succeed_clash;
    try (elim H; unfold all_succeed, bar_calls; now repeat constructor);
    try (unfold all_succeed, bar_calls; now repeat constructor).
Qed.

Lemma heatmap_file (E : oracle) (df : DataFrame) (fn : string) (w : world) :
  2 <= numeric_count df ->
  (writes (heatmap E df fn w) w ("heatmap_" ++ fn ++ ".png")
   <-> all_succeed E (heatmap_calls fn))
  /\ (~ all_succeed E (heatmap_calls fn) ->
      writes_nothing (heatmap E df fn w) w).
Proof.
  intros Hn. unfold writes, writes_nothing, heatmap, shape1, select_dtypes;
    simpl.
  assert (Hlt : (numeric_count df <? 2)%nat = false) by (apply Nat.ltb_ge; lia).
  unfold numeric_count in Hlt.
  unfold try_except, bind at 1, ext at 1.
  destruct (E (plt_figure 8 6)) eqn:HE0; simpl; [|rewrite Hlt];
    unfold_run; fault_cases E.
  all: split; [split|]; intros H;
    try reflexivity;
    try (symmetry in H; now apply app_one_neq in H);
    try all_succeed_clash;
    try (elim H; unfold all_succeed, heatmap_calls; now repeat constructor);
    try (unfold all_succeed, heatmap_calls; now repeat constructor).
Qed.

Lemma numeric_skip_writes_nothing
    (E : oracle) (df : DataFrame) (fn : string) (w : world) :
  numeric_count df < 2 ->
  writes_nothing (scatter_plot E df fn w) w
  /\ writes_nothing (heatmap E df fn w) w.
Proof.
  intros Hn. apply Nat.ltb_lt in Hn. unfold numeric_count in Hn.
  unfold writes_nothing, scatter_plot, heatmap, columns, shape1, select_dtypes;
    simpl.
  rewrite length_map, Hn.
  split; unfold_run; fault_cases E; reflexivity.
Qed.

Lemma categorical_skip_writes_nothing
    (E : oracle) (df : DataFrame) (fn : string) (w : world) :
  categorical_count df = 0 ->
  writes_nothing (bar_plot E df fn w) w.
Proof.
  intros Hn. apply Nat.eqb_eq in Hn. unfold categorical_count in Hn.
  unfold writes_nothing, bar_plot, columns, select_dtypes; simpl.
  rewrite length_map, Hn.
  unfold_run; fault_cases E; reflexivity.
Qed.

(** X7.  Whatever calls fault: a chart function writes its file exactly when the
    frame has enough columns of the right dtype and none of its library
    calls up to and including [plt.savefig] faults; otherwise it writes no
    file at all. *)
Theorem chart_file_iff_calls_succeed
    (E : oracle) (df : DataFrame) (fn : string) (w : world) :
  (forall x y rest,
     columns (select_dtypes [number] df) = x :: y :: rest ->
     (writes (scatter_plot E df fn w) w ("scatter_" ++ fn ++ ".png")
      <-> all_succeed E (scatter_calls x y fn))
     /\ (~ all_succeed E (scatter_calls x y fn) ->
         writes_nothing (scatter_plot E df fn w) w))
  /\ (forall x rest,
        columns (select_dtypes [object; category] df) = x :: rest ->
        (writes (bar_plot E df fn w) w ("bar_" ++ fn ++ ".png")
         <-> all_succeed E (bar_calls x fn))
        /\ (~ all_succeed E (bar_calls x fn) ->
            writes_nothing (bar_plot E df fn w) w))
  /\ (2 <= numeric_count df ->
      (writes (heatmap E df fn w) w ("heatmap_" ++ fn ++ ".png")
       <-> all_succeed E (heatmap_calls fn))
      /\ (~ all_succeed E (heatmap_calls fn) ->
          writes_nothing (heatmap E df fn w) w))
  /\ (numeric_count df < 2 ->
      writes_nothing (scatter_plot E df fn w) w
      /\ writes_nothing (heatmap E df fn w) w)
  /\ (categorical_count df = 0 -> writes_nothing (bar_plot E df fn w) w).
Proof.
  split; [|split; [|split; [|split]]].
  - intros x y rest Hc. now apply (scatter_plot_file E df fn w x y rest).
  - intros x rest Hc. now apply (bar_plot_file E df fn w x rest).
  - apply heatmap_file.
  - apply numeric_skip_writes_nothing.
  - apply categorical_skip_writes_nothing.
Qed.

(** X8.  A fault of [plt.close()], after the image was saved: the file is
    written, yet the function logs "Failed to save ..." and no success
    record. *)
Theorem close_fault_after_save
    (E : oracle) (df : DataFrame) (fn : string) (w : world) (msg : string) :
  E plt_close = Some msg ->
  (forall x y rest,
     columns (select_dtypes [number] df) = x :: y :: rest ->
     all_succeed E (scatter_calls x y fn) ->
     scatter_plot E df fn w
     = (Ok tt,
        emit w [] [(ERROR, "Failed to save scatter plot for " ++ fn ++ ": "
                           ++ msg)]
               ["scatter_" ++ fn ++ ".png"]
               (scatter_calls x y fn ++ [plt_close])))
  /\ (forall x rest,
        columns (select_dtypes [object; category] df) = x :: rest ->
        all_succeed E (bar_calls x fn) ->
        bar_plot E df fn w
        = (Ok tt,
           emit w [] [(ERROR, "Failed to save bar chart for " ++ fn ++ ": "
                              ++ msg)]
                  ["bar_" ++ fn ++ ".png"]
                  (bar_calls x fn ++ [plt_close])))
  /\ (2 <= numeric_count df ->
      all_succeed E (heatmap_calls fn) ->
      heatmap E df fn w
      = (Ok tt,
         emit w [] [(ERROR, "Failed to save heatmap for " ++ fn ++ ": "
                            ++ msg)]
                ["heatmap_" ++ fn ++ ".png"]
                (heatmap_calls fn ++ [plt_close]))).
Proof.
  intros Hclose. split; [|split].
  - intros x y rest Hc Hall. unfold scatter_plot. rewrite Hc.
    unfold all_succeed, scatter_calls in Hall.
    repeat match goal with
           | H : Forall _ (_ :: _) |- _ => inversion H; clear H; subst
           end.
    unfold_run.
    repeat match goal with
           | H : E _ = _ |- _ => rewrite H; simpl
           end.
    f_equal. world_eq.
  - intros x rest Hc Hall. unfold bar_plot. rewrite Hc.
    unfold all_succeed, bar_calls in Hall.
    repeat match goal with
           | H : Forall _ (_ :: _) |- _ => inversion H; clear H; subst
           end.
    unfold_run.
    repeat match goal with
           | H : E _ = _ |- _ => rewrite H; simpl
           end.
    f_equal. world_eq.
  - intros Hn Hall. unfold heatmap, shape1, select_dtypes; simpl.
    assert (Hlt : (numeric_count df <? 2)%nat = false)
      by (apply Nat.ltb_ge; lia).
    unfold numeric_count in Hlt.
    unfold all_succeed, heatmap_calls in Hall.
    repeat match goal with
           | H : Forall _ (_ :: _) |- _ => inversion H; clear H; subst
           end.
    unfold try_except, bind at 1, ext at 1.
    match goal with H : E (plt_figure 8 6) = None |- _ => rewrite H end.
    rewrite Hlt. unfold_run.
    repeat match goal with
           | H : E _ = _ |- _ => rewrite H; simpl
           end.
    f_equal. world_eq.
Qed.

Lemma close_fault_after_save_sample :
  close_faults plt_close = Some "close failed"
  /\ scatter_plot close_faults sample "data.csv" empty_world
     = (Ok tt,
        emit empty_world []
          [(ERROR, "Failed to save scatter plot for data.csv: close failed")]
          ["scatter_data.csv.png"]
          (scatter_calls "height" "weight" "data.csv" ++ [plt_close])).
Proof.
  split; [reflexivity|].
  apply (proj1 (close_fault_after_save close_faults sample "data.csv"
                  empty_world "close failed" eq_refl)
           "height" "weight" []).
  - reflexivity.
  - unfold all_succeed, scatter_calls. now repeat constructor.
Defined.

Ltac one_record_leaf :=
  do 2 eexists; (split; [split; reflexivity|]);
  let HF := fresh "HF" in
  intros HF;
  first [ discriminate
        | exfalso;
          match goal with
          | H : _ ?c = Some _ |- _ => rewrite (HF c) in H; discriminate
          end ].

Lemma placeholder_one_record (E : oracle) (f ok bad : string) (w : world) :
  exists l s,
    one_record (try_except (ext E plt_subplots ;; savefig E f ;; logger INFO ok)
                           (fun e => logger ERROR (bad ++ exn_str e)) w)
               w l s
    /\ (no_fault E -> l <> ERROR).
Proof.
  unfold one_record. unfold_run. fault_cases E.
  all: one_record_leaf.
Qed.

Lemma scatter_plot_one_record
    (E : oracle) (df : DataFrame) (fn : string) (w : world) :
  exists l s,
    one_record (scatter_plot E df fn w) w l s /\ (no_fault E -> l <> ERROR).
Proof.
  unfold one_record, scatter_plot.
  destruct (columns (select_dtypes [number] df)) as [|x [|y rest]];
    unfold_run; fault_cases E; one_record_leaf.
Qed.

Lemma bar_plot_one_record
    (E : oracle) (df : DataFrame) (fn : string) (w : world) :
  exists l s,
    one_record (bar_plot E df fn w) w l s /\ (no_fault E -> l <> ERROR).
Proof.
  unfold one_record, bar_plot.
  destruct (columns (select_dtypes [object; category] df)) as [|x rest];
    unfold_run; fault_cases E; one_record_leaf.
Qed.

Lemma heatmap_one_record
    (E : oracle) (df : DataFrame) (fn : string) (w : world) :
  exists l s,
    one_record (heatmap E df fn w) w l s /\ (no_fault E -> l <> ERROR).
Proof.
  unfold one_record, heatmap, shape1, select_dtypes; simpl.
  destruct (filter (has_dtype [number]) (df_columns df)) as [|a [|b rest]];
    unfold_run; fault_cases E; one_record_leaf.
Qed.

(** X9.  Each of the six chart functions returns normally whatever faults, and
    adds exactly one record to the log: a success, a skip warning or an
    error.  When no library call faults the record is never an error: the
    column-count guards keep every index access in range. *)
Theorem chart_functions_log_once
    (E : oracle) (df : DataFrame) (fn : string) (w : world) :
  (exists l s, one_record (plot_relational_plot E df w) w l s
               /\ (no_fault E -> l <> ERROR))
  /\ (exists l s, one_record (plot_statistical_plot E df w) w l s
                  /\ (no_fault E -> l <> ERROR))
  /\ (exists l s, one_record (plot_categorical_plot E df w) w l s
                  /\ (no_fault E -> l <> ERROR))
  /\ (exists l s, one_record (scatter_plot E df fn w) w l s
                  /\ (no_fault E -> l <> ERROR))
  /\ (exists l s, one_record (heatmap E df fn w) w l s
                  /\ (no_fault E -> l <> ERROR))
  /\ (exists l s, one_record (bar_plot E df fn w) w l s
                  /\ (no_fault E -> l <> ERROR)).
Proof.
  split; [apply placeholder_one_record|].
  split; [apply placeholder_one_record|].
  split; [apply placeholder_one_record|].
  split; [apply scatter_plot_one_record|].
  split; [apply heatmap_one_record|apply bar_plot_one_record].
Qed.

(** ** The image files of a run *)

Lemma charts_files (E : oracle) (df : DataFrame) (fn : string) (w : world) :
  no_fault E ->
  exists w',
    charts E df fn w = (Ok tt, w')
    /\ files w'
       = app (files w)
           (app ["relational_plot.png"; "statistical_plot.png";
                 "categorical_plot.png"]
              (app (if (2 <=? numeric_count df)%nat
                    then ["scatter_" ++ fn ++ ".png"; "heatmap_" ++ fn ++ ".png"]
                    else [])
                   (if (1 <=? categorical_count df)%nat
                    then ["bar_" ++ fn ++ ".png"] else []))).
Proof.
  intros HE.
  unfold charts, plot_relational_plot, plot_statistical_plot,
    plot_categorical_plot.
  unfold bind at 1. rewrite (placeholder_quiet E _ _ _ w HE).
  unfold bind at 1. rewrite (placeholder_quiet E _ _ _ _ HE).
  unfold bind at 1. rewrite (placeholder_quiet E _ _ _ _ HE).
  destruct (Nat.leb_spec 2 (numeric_count df)) as [Hn|Hn];
    destruct (Nat.leb_spec 1 (categorical_count df)) as [Hc|Hc].
  - destruct (two_numeric_names df Hn) as (x & y & rest & Hxy).
    destruct (one_categorical_name df Hc) as (b & rest' & Hb).
    unfold bind at 1. rewrite (scatter_plot_draw E df fn _ x y rest HE Hxy).
    unfold bind at 1. rewrite (heatmap_draw E df fn _ HE Hn).
    rewrite (bar_plot_draw E df fn _ b rest' HE Hb).
    eexists. split; [reflexivity|]. simpl.
    repeat rewrite <- app_assoc; repeat rewrite app_nil_r; reflexivity.
  - destruct (two_numeric_names df Hn) as (x & y & rest & Hxy).
    unfold bind at 1. rewrite (scatter_plot_draw E df fn _ x y rest HE Hxy).
    unfold bind at 1. rewrite (heatmap_draw E df fn _ HE Hn).
    rewrite (bar_plot_skip E df fn _ (HE _)) by lia.
    eexists. split; [reflexivity|]. simpl.
    repeat rewrite <- app_assoc; repeat rewrite app_nil_r; reflexivity.
  - destruct (one_categorical_name df Hc) as (b & rest' & Hb).
    unfold bind at 1. rewrite (scatter_plot_skip E df fn _ (HE _) Hn).
    unfold bind at 1. rewrite (heatmap_skip E df fn _ (HE _) Hn).
    rewrite (bar_plot_draw E df fn _ b rest' HE Hb).
    eexists. split; [reflexivity|]. simpl.
    repeat rewrite <- app_assoc; repeat rewrite app_nil_r; reflexivity.
  - unfold bind at 1. rewrite (scatter_plot_skip E df fn _ (HE _) Hn).
    unfold bind at 1. rewrite (heatmap_skip E df fn _ (HE _) Hn).
    rewrite (bar_plot_skip E df fn _ (HE _)) by lia.
    eexists. split; [reflexivity|]. simpl.
    repeat rewrite <- app_assoc; repeat rewrite app_nil_r; reflexivity.
Qed.

Lemma no_fault_diagnostics (E : oracle) : no_fault E -> diagnostics_ok E.
Proof. intros HE. repeat split; apply HE. Qed.

Lemma main_files_run (E : oracle) (df : DataFrame) (w : world) :
  no_fault E ->
  1 <= numeric_count df ->
  exists w',
    main E (Parsed df) w = (Ok tt, w')
    /\ files w'
       = app (files w)
           (app ["relational_plot.png"; "statistical_plot.png";
                 "categorical_plot.png"]
              (app (if (2 <=? numeric_count df)%nat
                    then ["scatter_data.csv.png"; "heatmap_data.csv.png"]
                    else [])
                   (if (1 <=? categorical_count df)%nat
                    then ["bar_data.csv.png"] else []))).
Proof.
  intros HE Hn.
  destruct (one_numeric_name df Hn) as (c & rest & Hc).
  apply head_first_eligible in Hc.
  rewrite (main_selected_column E df w c (no_fault_diagnostics E HE) Hc).
  unfold bind at 1.
  destruct (charts_files E (dropna df) "data.csv"
              (after_preprocessing (loaded w)) HE) as (w2 & -> & Hf).
  unfold bind.
  destruct (statistical_analysis_returns (dropna df) c w2)
    as (r & l & s & -> & _).
  destruct (writing_returns r c (emit w2 [] [(l, s)] [] []))
    as (out & l' & s' & ->).
  eexists. split; [reflexivity|].
  destruct (numeric_count_dropna df) as [Hnum Hcat].
  rewrite Hnum, Hcat in Hf.
  cbn [files emit]. rewrite !app_nil_r, Hf.
  cbn [files after_preprocessing emit loaded]. now rewrite app_nil_r.
Qed.

(** X10.  The image files of a whole run, when no library call faults and the frame
    has a numeric column: the three overview charts always; the scatter plot
    and the heatmap exactly when the frame read from the file has two numeric
    columns; the bar chart exactly when it has an object or category column.
    The columns are counted on the frame as read: cleaning does not change
    them. *)
Theorem main_image_files (E : oracle) (df : DataFrame) (w : world) :
  no_fault E ->
  1 <= numeric_count df ->
  fst (main E (Parsed df) w) = Ok tt
  /\ files (snd (main E (Parsed df) w))
     = app (files w)
         (app ["relational_plot.png"; "statistical_plot.png";
               "categorical_plot.png"]
            (app (if (2 <=? numeric_count df)%nat
                  then ["scatter_data.csv.png"; "heatmap_data.csv.png"]
                  else [])
                 (if (1 <=? categorical_count df)%nat
                  then ["bar_data.csv.png"] else []))).
Proof.
  intros HE Hn.
  destruct (main_files_run E df w HE Hn) as (w' & -> & Hf).
  split; [reflexivity|exact Hf].
Qed.

Lemma main_image_files_sample :
  no_fault quiet
  /\ 1 <= numeric_count sample
  /\ files (snd (main quiet (Parsed sample) empty_world))
     = ["relational_plot.png"; "statistical_plot.png"; "categorical_plot.png";
        "scatter_data.csv.png"; "heatmap_data.csv.png"; "bar_data.csv.png"].
Proof.
  split; [exact no_fault_quiet|]. split; [exact (le_S 1 1 (le_n 1))|].
  exact (proj2 (main_image_files quiet sample empty_world no_fault_quiet
                  (le_S 1 1 (le_n 1)))).
Defined.

(** ** The analysed column after cleaning *)

Lemma lookup_in (col : string) (cols : list (string * series)) (s : series) :
  lookup col cols = Some s -> In (col, s) cols.
Proof.
  induction cols as [|[n s'] cols IH]; simpl; [discriminate|].
  destruct (String.eqb_spec n col) as [->|Hn].
  - intros H. injection H as ->. now left.
  - intros H. right. now apply IH.
Qed.




(** X12.  When no row survives cleaning, [main] does not stop: it still calls the
    chart functions, and reports four nan moments with the labels
    "Symmetrical" and "Mesokurtic", since nan is neither above nor below
    zero. *)
Theorem main_on_frame_without_complete_row
    (E : oracle) (df : DataFrame) (w : world) (c : string) (xs : list float) :
  diagnostics_ok E ->
  wf df ->
  df_index (dropna df) = [] ->
  first_eligible [number] (df_columns df) c ->
  lookup c (df_columns (dropna df)) = Some (Numeric xs) ->
  exists w2,
    charts E (dropna df) "data.csv" (after_preprocessing (loaded w)) = (Ok tt, w2)
    /\ main E (Parsed df) w
       = (Ok tt,
          emit w2
            [Text ("For the attribute " ++ c ++ ":");
             MomentsText nan nan nan nan;
             Text "The data is Symmetrical and Mesokurtic."]
            [(INFO, "Statistical analysis for column " ++ c
                    ++ " completed successfully.");
             (INFO, "Statistical moments for column " ++ c
                    ++ " printed successfully.")]
            [] []).
Proof.
  intros HE Hwf Hidx Hc Hl.
  assert (Hxs : xs = []).
  { pose proof (wf_loc_mask (notna_all df) df Hwf) as Hwf'.
    unfold wf in Hwf'. rewrite Forall_forall in Hwf'.
    specialize (Hwf' _ (lookup_in _ _ _ Hl)).
    change (length xs = length (df_index (dropna df))) in Hwf'.
    rewrite Hidx in Hwf'. now destruct xs. }
  subst xs.
  destruct (main_report E df w c [] HE Hc Hl) as (w2 & Hw2 & Hmain).
  exists w2. split; [exact Hw2|]. exact Hmain.
Qed.

Lemma main_on_frame_without_complete_row_sample :
  diagnostics_ok quiet
  /\ wf all_incomplete
  /\ df_index (dropna all_incomplete) = []
  /\ first_eligible [number] (df_columns all_incomplete) "height"
  /\ lookup "height" (df_columns (dropna all_incomplete)) = Some (Numeric [])
  /\ exists w2,
       charts quiet (dropna all_incomplete) "data.csv"
              (after_preprocessing (loaded empty_world)) = (Ok tt, w2)
       /\ main quiet (Parsed all_incomplete) empty_world
          = (Ok tt,
             emit w2
               [Text ("For the attribute " ++ "height" ++ ":");
                MomentsText nan nan nan nan;
                Text "The data is Symmetrical and Mesokurtic."]
               [(INFO, "Statistical analysis for column " ++ "height"
                       ++ " completed successfully.");
                (INFO, "Statistical moments for column " ++ "height"
                       ++ " printed successfully.")]
               [] []).
Proof.
  assert (Hwf : wf all_incomplete) by (repeat constructor).
  assert (Hc : first_eligible [number] (df_columns all_incomplete) "height").
  { now exists [], (Numeric [nan; fin 2; fin 3]),
      [("city", Object [Some "york"; None; None])]. }
  split; [exact diagnostics_ok_quiet|]. split; [exact Hwf|].
  split; [reflexivity|]. split; [exact Hc|]. split; [reflexivity|].
  exact (main_on_frame_without_complete_row quiet all_incomplete empty_world
           "height" [] diagnostics_ok_quiet Hwf eq_refl Hc eq_refl).
Defined.

(** ** Running the script: [main] twice *)

Example script_on_text_only :
  files (snd (script quiet (Parsed text_only) (Parsed text_only) empty_world))
  = [] /\
  stdout (snd (script quiet (Parsed text_only) (Parsed text_only) empty_world))
  = [Table describe; Table head; Table corr;
     Text "No numeric data in data.csv.";
     Table describe; Table head; Table corr;
     Text "No numeric data in data.csv."].
Proof. split; reflexivity. Qed.

(** ** The first definitions and the second *)

Ltac logged_leaf :=
  do 2 eexists; split; [reflexivity|]; split; [reflexivity|];
  split; [ intros H; first [ discriminate H | eexists; reflexivity ]
         | intros [? H]; first [ discriminate H | reflexivity ] ].

Ltac logged_cases E :=
  let w1 := fresh "w1" in
  let w2 := fresh "w2" in
  let H := fresh "H" in
  intros w1 w2 H; destruct w1, w2; destruct H as (H1 & H2 & H3);
  simpl in H1, H2, H3; subst;
  unfold_run; fault_cases E; logged_leaf.

Lemma placeholder_logged (E : oracle) (f ok bad : string) :
  logged_version
    (ext E plt_subplots ;; savefig E f)
    (try_except (ext E plt_subplots ;; savefig E f ;; logger INFO ok)
                (fun e => logger ERROR (bad ++ exn_str e))).
Proof. logged_cases E. Qed.

Lemma scatter_plot_logged (E : oracle) (df : DataFrame) (fn : string) :
  logged_version (Plain.scatter_plot E df fn) (scatter_plot E df fn).
Proof.
  unfold Plain.scatter_plot, scatter_plot.
  destruct (columns (select_dtypes [number] df)) as [|x [|y rest]];
    logged_cases E.
Qed.

Lemma bar_plot_logged (E : oracle) (df : DataFrame) (fn : string) :
  logged_version (Plain.bar_plot E df fn) (bar_plot E df fn).
Proof.
  unfold Plain.bar_plot, bar_plot.
  destruct (columns (select_dtypes [object; category] df)) as [|x rest];
    logged_cases E.
Qed.

Lemma heatmap_logged (E : oracle) (df : DataFrame) (fn : string) :
  logged_version (Plain.heatmap E df fn) (heatmap E df fn).
Proof.
  unfold Plain.heatmap, heatmap, shape1, select_dtypes; simpl.
  destruct (filter (has_dtype [number]) (df_columns df)) as [|a [|b rest]];
    logged_cases E.
Qed.

(** X15.  Each chart function of the second group is the function of the first
    group with logging and a handler around it: it leaves the console, the
    image files and the library calls as the first one does, always returns,
    and adds one log record, an error exactly when the first one raises. *)
Theorem second_definitions_add_logging
    (E : oracle) (df : DataFrame) (fn : string) :
  logged_version (Plain.plot_relational_plot E df) (plot_relational_plot E df)
  /\ logged_version (Plain.plot_statistical_plot E df)
                    (plot_statistical_plot E df)
  /\ logged_version (Plain.plot_categorical_plot E df)
                    (plot_categorical_plot E df)
  /\ logged_version (Plain.scatter_plot E df fn) (scatter_plot E df fn)
  /\ logged_version (Plain.heatmap E df fn) (heatmap E df fn)
  /\ logged_version (Plain.bar_plot E df fn) (bar_plot E df fn).
Proof.
  split; [apply placeholder_logged|].
  split; [apply placeholder_logged|].
  split; [apply placeholder_logged|].
  split; [apply scatter_plot_logged|].
  split; [apply heatmap_logged|apply bar_plot_logged].
Qed.

Lemma second_definitions_add_logging_aux
    (E : oracle) (df : DataFrame) (fn : string) :
  logged_version (Plain.plot_relational_plot E df) (plot_relational_plot E df)
  /\ logged_version (Plain.plot_statistical_plot E df)
                    (plot_statistical_plot E df)
  /\ logged_version (Plain.plot_categorical_plot E df)
                    (plot_categorical_plot E df)
  /\ logged_version (Plain.scatter_plot E df fn) (scatter_plot E df fn)
  /\ logged_version (Plain.heatmap E df fn) (heatmap E df fn)
  /\ logged_version (Plain.bar_plot E df fn) (bar_plot E df fn).
Proof.
  split; [apply placeholder_logged|].
  split; [apply placeholder_logged|].
  split; [apply placeholder_logged|].
  split; [apply scatter_plot_logged|].
  split; [apply heatmap_logged|apply bar_plot_logged].
Qed.

Lemma chart_functions_log_once_aux
    (E : oracle) (df : DataFrame) (fn : string) :
  (forall w, exists l s, one_record (plot_relational_plot E df w) w l s
                         /\ (no_fault E -> l <> ERROR))
  /\ (forall w, exists l s, one_record (plot_statistical_plot E df w) w l s
                            /\ (no_fault E -> l <> ERROR))
  /\ (forall w, exists l s, one_record (plot_categorical_plot E df w) w l s
                            /\ (no_fault E -> l <> ERROR))
  /\ (forall w, exists l s, one_record (scatter_plot E df fn w) w l s
                            /\ (no_fault E -> l <> ERROR))
  /\ (forall w, exists l s, one_record (heatmap E df fn w) w l s
                            /\ (no_fault E -> l <> ERROR))
  /\ (forall w, exists l s, one_record (bar_plot E df fn w) w l s
                            /\ (no_fault E -> l <> ERROR)).
Proof.
  split; [intros w; apply placeholder_one_record|].
  split; [intros w; apply placeholder_one_record|].
  split; [intros w; apply placeholder_one_record|].
  split; [intros w; apply scatter_plot_one_record|].
  split; [intros w; apply heatmap_one_record|].
  intros w; apply bar_plot_one_record.
Qed.

Lemma logged_step (E : oracle) (p l : M unit) (w1 w2 : world) :
  logged_version p l ->
  (exists lv s, one_record (l w2) w2 lv s /\ (no_fault E -> lv <> ERROR)) ->
  no_fault E ->
  same_output w1 w2 ->
  exists w1' w2',
    p w1 = (Ok tt, w1') /\ l w2 = (Ok tt, w2')
    /\ same_output w1' w2' /\ log w1' = log w1.
Proof.
  intros Hlog (lv & s & (_ & Hrec) & Hne) HE Hsame.
  destruct (Hlog w1 w2 Hsame) as (lv' & s' & Hl & Hp & Herr).
  rewrite Hl in Hrec; simpl in Hrec.
  apply app_inv_head in Hrec. injection Hrec as -> ->.
  destruct (p w1) as [[[]|e] w1'] eqn:Hrun; simpl in *.
  - exists w1'. eexists. split; [reflexivity|]. split; [exact Hl|].
    split; [now repeat split|exact Hp].
  - exfalso. apply (Hne HE). apply Herr. now exists e.
Qed.

Lemma charts_agree (E : oracle) (df : DataFrame) (fn : string) (w1 w2 : world) :
  no_fault E ->
  same_output w1 w2 ->
  exists w1' w2',
    Plain.charts E df fn w1 = (Ok tt, w1') /\ charts E df fn w2 = (Ok tt, w2')
    /\ same_output w1' w2' /\ log w1' = log w1.
Proof.
  intros HE Hs.
  destruct (second_definitions_add_logging_aux E df fn)
    as (L1 & L2 & L3 & L4 & L5 & L6).
  destruct (chart_functions_log_once_aux E df fn)
    as (R1 & R2 & R3 & R4 & R5 & R6).
  unfold Plain.charts, charts.
  destruct (logged_step E _ _ w1 w2 L1 (R1 w2) HE Hs)
    as (a1 & b1 & Hp1 & Hl1 & Hs1 & Hg1).
  destruct (logged_step E _ _ a1 b1 L2 (R2 b1) HE Hs1)
    as (a2 & b2 & Hp2 & Hl2 & Hs2 & Hg2).
  destruct (logged_step E _ _ a2 b2 L3 (R3 b2) HE Hs2)
    as (a3 & b3 & Hp3 & Hl3 & Hs3 & Hg3).
  destruct (logged_step E _ _ a3 b3 L4 (R4 b3) HE Hs3)
    as (a4 & b4 & Hp4 & Hl4 & Hs4 & Hg4).
  destruct (logged_step E _ _ a4 b4 L5 (R5 b4) HE Hs4)
    as (a5 & b5 & Hp5 & Hl5 & Hs5 & Hg5).
  destruct (logged_step E _ _ a5 b5 L6 (R6 b5) HE Hs5)
    as (a6 & b6 & Hp6 & Hl6 & Hs6 & Hg6).
  exists a6, b6. unfold bind.
  rewrite Hp1, Hp2, Hp3, Hp4, Hp5, Hp6, Hl1, Hl2, Hl3, Hl4, Hl5, Hl6.
  repeat split; try apply Hs6. congruence.
Qed.

Lemma plain_preprocessing_ok (E : oracle) (df : DataFrame) (w : world) :
  diagnostics_ok E ->
  Plain.preprocessing E df w
  = (Ok (dropna df),
     emit w [Table describe; Table head; Table corr] [] []
            [df_describe; df_head; df_corr]).
Proof.
  intros (Hd & Hh & Hc).
  unfold Plain.preprocessing, bind, ext, print, ret; simpl.
  rewrite Hd, Hh, Hc; simpl. f_equal. world_eq.
Qed.

Lemma plain_statistical_analysis_numeric
    (df : DataFrame) (col : string) (xs : list float) (w : world) :
  lookup col (df_columns df) = Some (Numeric xs) ->
  Plain.statistical_analysis df col w
  = (Ok (nanmean xs, nanstd xs,
         skew_array (remove_nans xs), kurtosis_array (remove_nans xs)), w).
Proof.
  intros Hl. unfold Plain.statistical_analysis, getitem. rewrite Hl.
  unfold bind, Series_mean, Series_std, ss_skew, ss_kurtosis, lift, bind, ret.
  reflexivity.
Qed.

Lemma plain_writing_some (m0 m1 m2 m3 : float) (col : string) (w : world) :
  Plain.writing (Some (m0, m1, m2, m3)) col w
  = (Ok tt,
     emit w [Text ("For the attribute " ++ col ++ ":");
             MomentsText m0 m1 m2 m3;
             Text ("The data is " ++ skew_desc m2 ++ " and "
                   ++ kurtosis_desc m3 ++ ".")]
            [] [] []).
Proof.
  unfold Plain.writing, bind, subscript, print, ret; simpl.
  f_equal. world_eq.
Qed.

Lemma plain_main_selected_column
    (E : oracle) (df : DataFrame) (w : world) (c : string) :
  diagnostics_ok E ->
  first_eligible [number] (df_columns df) c ->
  Plain.main E (Parsed df) w
  = (Plain.charts E (dropna df) "data.csv" ;;
     moments <- Plain.statistical_analysis (dropna df) c ;;
     Plain.writing (Some moments) c)
      (emit w [Table describe; Table head; Table corr] [] []
              [df_describe; df_head; df_corr]).
Proof.
  intros HE Hc. unfold Plain.main.
  unfold bind at 1. rewrite (plain_preprocessing_ok E df w HE).
  unfold dropna at 1 2. rewrite columns_select_loc_mask.
  destruct (first_eligible_head _ _ _ Hc) as (rest & Hrest).
  change (columns (select_dtypes [number] df) = c :: rest) in Hrest.
  rewrite Hrest. reflexivity.
Qed.

(** X16.  When no library call faults, the first [main] and the second do the same
    to the console, the image files and the library calls; the first logs
    nothing.  The frame either has no numeric column, or its first numeric
    column is found under its name. *)
Theorem main_definitions_agree (E : oracle) (df : DataFrame) (w : world) :
  no_fault E ->
  (numeric_count df = 0
   \/ exists c xs,
        first_eligible [number] (df_columns df) c
        /\ lookup c (df_columns (dropna df)) = Some (Numeric xs)) ->
  exists w1 w2,
    Plain.main E (Parsed df) w = (Ok tt, w1)
    /\ main E (Parsed df) w = (Ok tt, w2)
    /\ same_output w1 w2
    /\ log w1 = log w.
Proof.
  intros HE [Hz|(c & xs & Hc & Hl)].
  - rewrite (main_no_numeric_column E df w (no_fault_diagnostics E HE) Hz).
    unfold Plain.main. unfold bind at 1.
    rewrite (plain_preprocessing_ok E df w (no_fault_diagnostics E HE)).
    assert (Hlen : length (columns (select_dtypes [number] (dropna df))) = 0).
    { unfold columns, select_dtypes; simpl. rewrite length_map.
      change (numeric_count (dropna df) = 0).
      now rewrite (proj1 (numeric_count_dropna df)). }
    rewrite Hlen; simpl. do 2 eexists.
    split; [reflexivity|]. split; [reflexivity|].
    unfold same_output; simpl. rewrite <- !app_assoc, !app_nil_r. now repeat split.
  - rewrite (main_selected_column E df w c (no_fault_diagnostics E HE) Hc).
    rewrite (plain_main_selected_column E df w c (no_fault_diagnostics E HE) Hc).
    assert (Hs : same_output
                   (emit w [Table describe; Table head; Table corr] [] []
                           [df_describe; df_head; df_corr])
                   (after_preprocessing (loaded w))).
    { unfold same_output; simpl. now rewrite app_nil_r. }
    destruct (charts_agree E (dropna df) "data.csv" _ _ HE Hs)
      as (a & b & Hp & Hlg & (S1 & S2 & S3) & Hg).
    eexists. eexists. split; [|split].
    + unfold bind at 1. rewrite Hp. unfold bind.
      rewrite (plain_statistical_analysis_numeric _ _ _ _ Hl).
      rewrite plain_writing_some. reflexivity.
    + unfold bind at 1. rewrite Hlg. unfold bind.
      rewrite (statistical_analysis_numeric _ _ _ _ Hl).
      rewrite writing_some. reflexivity.
    + unfold same_output; simpl. rewrite !app_nil_r, S1, S2, S3, Hg.
      simpl. rewrite app_nil_r. now repeat split.
Qed.

Lemma main_definitions_agree_sample :
  no_fault quiet
  /\ first_eligible [number] (df_columns sample) "height"
  /\ lookup "height" (df_columns (dropna sample)) = Some (Numeric [fin 1; fin 5])
  /\ exists w1 w2,
       Plain.main quiet (Parsed sample) empty_world = (Ok tt, w1)
       /\ main quiet (Parsed sample) empty_world = (Ok tt, w2)
       /\ same_output w1 w2
       /\ log w1 = log empty_world.
Proof.
  assert (Hc : first_eligible [number] (df_columns sample) "height").
  { now exists [], (Numeric [fin 1; nan; fin 3; fin 5]),
      (tl (df_columns sample)). }
  split; [exact no_fault_quiet|]. split; [exact Hc|]. split; [reflexivity|].
  apply (main_definitions_agree quiet sample empty_world no_fault_quiet).
  right. exists "height", [fin 1; fin 5]. now split.
Defined.
